(** * Session negotiation and resource discovery of the Redfish exporter

    A shallow embedding of [RedfishMetricsCollector] from [collector.py]:
    [connect_server], [get_session], [get_base_labels],
    [get_chassis_urls], [collect] up to its call of [get_base_labels] and
    [__exit__], with the Python exceptions, early returns and attribute
    updates of the source written out over an explicit collector state.
    Wall-clock measurements ([_response_time], [_start_time]), log output
    and the collectors of other modules that [collect] runs afterwards are
    not part of the model. *)

From stdpp Require Import gmap strings list fin_maps.
From Stdlib Require Import ZArith Ascii String Lia.

Local Open Scope string_scope.
Local Open Scope Z_scope.

(** ** JSON values as Python sees them after [json()] *)

(** A decoded body.  Objects keep their members as an association list
    whose first binding of a key is the one a Python [dict] lookup finds;
    numbers are integers (the code never computes on a JSON number). *)
#[warnings="-register-all"]
Inductive json : Type :=
  | JNull
  | JBool (b : bool)
  | JInt (z : Z)
  | JStr (s : string)
  | JList (l : list json)
  | JDict (d : list (string * json)).

(** The exceptions that can travel through the modelled methods. *)
Inductive net_error : Type :=
  | ConnectTimeout
  | ReadTimeout
  | ConnectionError
  | OtherRequestException.

Inductive exn : Type :=
  | KeyError
  | TypeError
  | AttributeError
  | IndexError
  | HTTPError
  | RequestsError (e : net_error).

(** Result of evaluating a Python expression. *)
Inductive res (A : Type) : Type :=
  | Ok (a : A)
  | Raise (e : exn).
Arguments Ok {A} a.
Arguments Raise {A} e.

Definition res_bind {A B : Type} (m : res A) (f : A -> res B) : res B :=
  match m with
  | Ok a => f a
  | Raise e => Raise e
  end.

Declare Scope res_scope.
Delimit Scope res_scope with res.
Bind Scope res_scope with res.
Notation "x ← y ; z" := (res_bind y%res (fun x => z%res))
  (at level 20, y at level 100, z at level 200, only parsing) : res_scope.

Module Py.

(** [bool(v)] *)
Definition truthy (v : json) : bool :=
  match v with
  | JNull => false
  | JBool b => b
  | JInt z => negb (z =? 0)
  | JStr s => negb (String.eqb s "")
  | JList l => match l with [] => false | _ => true end
  | JDict d => match d with [] => false | _ => true end
  end.

(** Lookup of a member name in a decoded object. *)
Fixpoint assoc (k : string) (d : list (string * json)) : option json :=
  match d with
  | [] => None
  | (k', v) :: d' => if String.eqb k k' then Some v else assoc k d'
  end.

(** [v[k]] for a string key [k]. *)
Definition item (v : json) (k : string) : res json :=
  match v with
  | JDict d => match assoc k d with Some x => Ok x | None => Raise KeyError end
  | _ => Raise TypeError
  end.

(** [v[0]] *)
Definition first (v : json) : res json :=
  match v with
  | JList l => match l with x :: _ => Ok x | [] => Raise IndexError end
  | JStr s => match s with String c _ => Ok (JStr (String c "")) | "" => Raise IndexError end
  | JDict _ => Raise KeyError
  | _ => Raise TypeError
  end.

(** [k in s] on two strings: substring test. *)
Fixpoint infix (k s : string) : bool :=
  String.prefix k s ||
  match s with
  | String _ s' => infix k s'
  | "" => false
  end.

Definition eq_str (k : string) (v : json) : bool :=
  match v with
  | JStr s => String.eqb k s
  | _ => false
  end.

(** [k in v] for a string [k]. *)
Definition contains (k : string) (v : json) : res bool :=
  match v with
  | JDict d => Ok (match assoc k d with Some _ => true | None => false end)
  | JList l => Ok (existsb (eq_str k) l)
  | JStr s => Ok (infix k s)
  | _ => Raise TypeError
  end.

(** [v.get(k, default)]: only a [dict] has the method. *)
Definition get (v : json) (k : string) (default : json) : res json :=
  match v with
  | JDict d => Ok (match assoc k d with Some x => x | None => default end)
  | _ => Raise AttributeError
  end.

Definition lower_ascii (c : ascii) : ascii :=
  let n := N_of_ascii c in
  if ((65 <=? n) && (n <=? 90))%N then ascii_of_N (n + 32) else c.

Fixpoint lower_string (s : string) : string :=
  match s with
  | "" => ""
  | String c s' => String (lower_ascii c) (lower_string s')
  end.

(** [v.lower()]: only a [str] has the method. *)
Definition lower (v : json) : res string :=
  match v with
  | JStr s => Ok (lower_string s)
  | _ => Raise AttributeError
  end.

Definition isinstance_dict (v : json) : bool :=
  match v with JDict _ => true | _ => false end.
Definition isinstance_list (v : json) : bool :=
  match v with JList _ => true | _ => false end.
Definition isinstance_str (v : json) : bool :=
  match v with JStr _ => true | _ => false end.

(** [str(v)]: a string is unchanged; other values are kept as they are
    (their printed form plays no role below). *)
Definition str (v : json) : json := v.

End Py.

(** ** The transport: requests sent and what comes back *)

(** The [requests.Session] the collector keeps: its [auth] attribute and
    the [X-Auth-Token] entry of its default headers. *)
Record session : Type := {
  auth : option (string * string);
  x_auth_token : option json;
}.

(** A request as it leaves the collector.  The URL is
    [https://{target}{command}]; only [command] is recorded. *)
Inductive request : Type :=
  | GET (command : json) (via : session)
  | POST (command : json) (UserName Password : string) (via : session).

(** A [requests.Response]: [body] is [None] when [json()] cannot decode
    the payload. *)
Record response : Type := {
  status_code : Z;
  headers : list (string * string);
  body : option json;
}.

(** What one call of [Session.get] or [Session.post] does, before
    [raise_for_status]. *)
Inductive outcome : Type :=
  | Responded (r : response)
  | Failed (e : net_error).

(** The managed server: the outcome of the [n]-th request of a scrape. *)
Definition remote : Type := nat -> request -> outcome.

(** [raise_for_status] raises [HTTPError] exactly for 4xx and 5xx. *)
Definition is_http_error (r : response) : bool :=
  (400 <=? status_code r) && (status_code r <? 600).

(** [bool(response)] is [response.ok]. *)
Definition ok (r : response) : bool := negb (is_http_error r).

(** [ConnectTimeout] derives from [ConnectionError]; [ReadTimeout] does not. *)
Definition is_ConnectionError (e : net_error) : bool :=
  match e with
  | ConnectTimeout | ConnectionError => true
  | ReadTimeout | OtherRequestException => false
  end.

(** [response.headers.get(name)]: header names compare without case. *)
Fixpoint header (name : string) (hs : list (string * string)) : json :=
  match hs with
  | [] => JNull
  | (n, v) :: hs' =>
      if String.eqb (Py.lower_string n) (Py.lower_string name) then JStr v
      else header name hs'
  end.

(** ** The collector object *)

(** Value of a sample: an integer code or [math.nan]. *)
Inductive metric_value : Type :=
  | Num (z : Z)
  | NaN.

Record sample : Type := {
  sample_labels : gmap string json;
  sample_value : metric_value;
}.

(** The attributes of [RedfishMetricsCollector] that the modelled methods
    read or write, followed by two histories kept for the statements
    below: [exchanges] lists every request sent with its outcome, oldest
    first, and [urls_trace] lists the value of [urls] after each
    assignment to one of its entries, oldest first. *)
Record collector : Type := {
  labels : gmap string json;
  _redfish_up : Z;
  _last_http_code : Z;
  powerstate : Z;
  urls : gmap string json;
  server_health : Z;
  manufacturer : json;
  model : json;
  serial : json;
  _session_url : json;
  _auth_token : json;
  _basic_auth : bool;
  _session : option session;
  redfish_version : json;
  health_summary_metrics : list sample;
  _systems_url : option json;
  exchanges : list (request * outcome);
  urls_trace : list (gmap string json);
}.

Definition set_labels (v : gmap string json) (s : collector) : collector :=
  {| labels := v;
     _redfish_up := _redfish_up s;
     _last_http_code := _last_http_code s;
     powerstate := powerstate s;
     urls := urls s;
     server_health := server_health s;
     manufacturer := manufacturer s;
     model := model s;
     serial := serial s;
     _session_url := _session_url s;
     _auth_token := _auth_token s;
     _basic_auth := _basic_auth s;
     _session := _session s;
     redfish_version := redfish_version s;
     health_summary_metrics := health_summary_metrics s;
     _systems_url := _systems_url s;
     exchanges := exchanges s;
     urls_trace := urls_trace s |}.

Definition set__redfish_up (v : Z) (s : collector) : collector :=
  {| labels := labels s;
     _redfish_up := v;
     _last_http_code := _last_http_code s;
     powerstate := powerstate s;
     urls := urls s;
     server_health := server_health s;
     manufacturer := manufacturer s;
     model := model s;
     serial := serial s;
     _session_url := _session_url s;
     _auth_token := _auth_token s;
     _basic_auth := _basic_auth s;
     _session := _session s;
     redfish_version := redfish_version s;
     health_summary_metrics := health_summary_metrics s;
     _systems_url := _systems_url s;
     exchanges := exchanges s;
     urls_trace := urls_trace s |}.

Definition set__last_http_code (v : Z) (s : collector) : collector :=
  {| labels := labels s;
     _redfish_up := _redfish_up s;
     _last_http_code := v;
     powerstate := powerstate s;
     urls := urls s;
     server_health := server_health s;
     manufacturer := manufacturer s;
     model := model s;
     serial := serial s;
     _session_url := _session_url s;
     _auth_token := _auth_token s;
     _basic_auth := _basic_auth s;
     _session := _session s;
     redfish_version := redfish_version s;
     health_summary_metrics := health_summary_metrics s;
     _systems_url := _systems_url s;
     exchanges := exchanges s;
     urls_trace := urls_trace s |}.

Definition set_powerstate (v : Z) (s : collector) : collector :=
  {| labels := labels s;
     _redfish_up := _redfish_up s;
     _last_http_code := _last_http_code s;
     powerstate := v;
     urls := urls s;
     server_health := server_health s;
     manufacturer := manufacturer s;
     model := model s;
     serial := serial s;
     _session_url := _session_url s;
     _auth_token := _auth_token s;
     _basic_auth := _basic_auth s;
     _session := _session s;
     redfish_version := redfish_version s;
     health_summary_metrics := health_summary_metrics s;
     _systems_url := _systems_url s;
     exchanges := exchanges s;
     urls_trace := urls_trace s |}.

Definition set_server_health (v : Z) (s : collector) : collector :=
  {| labels := labels s;
     _redfish_up := _redfish_up s;
     _last_http_code := _last_http_code s;
     powerstate := powerstate s;
     urls := urls s;
     server_health := v;
     manufacturer := manufacturer s;
     model := model s;
     serial := serial s;
     _session_url := _session_url s;
     _auth_token := _auth_token s;
     _basic_auth := _basic_auth s;
     _session := _session s;
     redfish_version := redfish_version s;
     health_summary_metrics := health_summary_metrics s;
     _systems_url := _systems_url s;
     exchanges := exchanges s;
     urls_trace := urls_trace s |}.

Definition set_manufacturer (v : json) (s : collector) : collector :=
  {| labels := labels s;
     _redfish_up := _redfish_up s;
     _last_http_code := _last_http_code s;
     powerstate := powerstate s;
     urls := urls s;
     server_health := server_health s;
     manufacturer := v;
     model := model s;
     serial := serial s;
     _session_url := _session_url s;
     _auth_token := _auth_token s;
     _basic_auth := _basic_auth s;
     _session := _session s;
     redfish_version := redfish_version s;
     health_summary_metrics := health_summary_metrics s;
     _systems_url := _systems_url s;
     exchanges := exchanges s;
     urls_trace := urls_trace s |}.

Definition set_model (v : json) (s : collector) : collector :=
  {| labels := labels s;
     _redfish_up := _redfish_up s;
     _last_http_code := _last_http_code s;
     powerstate := powerstate s;
     urls := urls s;
     server_health := server_health s;
     manufacturer := manufacturer s;
     model := v;
     serial := serial s;
     _session_url := _session_url s;
     _auth_token := _auth_token s;
     _basic_auth := _basic_auth s;
     _session := _session s;
     redfish_version := redfish_version s;
     health_summary_metrics := health_summary_metrics s;
     _systems_url := _systems_url s;
     exchanges := exchanges s;
     urls_trace := urls_trace s |}.

Definition set_serial (v : json) (s : collector) : collector :=
  {| labels := labels s;
     _redfish_up := _redfish_up s;
     _last_http_code := _last_http_code s;
     powerstate := powerstate s;
     urls := urls s;
     server_health := server_health s;
     manufacturer := manufacturer s;
     model := model s;
     serial := v;
     _session_url := _session_url s;
     _auth_token := _auth_token s;
     _basic_auth := _basic_auth s;
     _session := _session s;
     redfish_version := redfish_version s;
     health_summary_metrics := health_summary_metrics s;
     _systems_url := _systems_url s;
     exchanges := exchanges s;
     urls_trace := urls_trace s |}.

Definition set__session_url (v : json) (s : collector) : collector :=
  {| labels := labels s;
     _redfish_up := _redfish_up s;
     _last_http_code := _last_http_code s;
     powerstate := powerstate s;
     urls := urls s;
     server_health := server_health s;
     manufacturer := manufacturer s;
     model := model s;
     serial := serial s;
     _session_url := v;
     _auth_token := _auth_token s;
     _basic_auth := _basic_auth s;
     _session := _session s;
     redfish_version := redfish_version s;
     health_summary_metrics := health_summary_metrics s;
     _systems_url := _systems_url s;
     exchanges := exchanges s;
     urls_trace := urls_trace s |}.

Definition set__auth_token (v : json) (s : collector) : collector :=
  {| labels := labels s;
     _redfish_up := _redfish_up s;
     _last_http_code := _last_http_code s;
     powerstate := powerstate s;
     urls := urls s;
     server_health := server_health s;
     manufacturer := manufacturer s;
     model := model s;
     serial := serial s;
     _session_url := _session_url s;
     _auth_token := v;
     _basic_auth := _basic_auth s;
     _session := _session s;
     redfish_version := redfish_version s;
     health_summary_metrics := health_summary_metrics s;
     _systems_url := _systems_url s;
     exchanges := exchanges s;
     urls_trace := urls_trace s |}.

Definition set__basic_auth (v : bool) (s : collector) : collector :=
  {| labels := labels s;
     _redfish_up := _redfish_up s;
     _last_http_code := _last_http_code s;
     powerstate := powerstate s;
     urls := urls s;
     server_health := server_health s;
     manufacturer := manufacturer s;
     model := model s;
     serial := serial s;
     _session_url := _session_url s;
     _auth_token := _auth_token s;
     _basic_auth := v;
     _session := _session s;
     redfish_version := redfish_version s;
     health_summary_metrics := health_summary_metrics s;
     _systems_url := _systems_url s;
     exchanges := exchanges s;
     urls_trace := urls_trace s |}.

Definition set__session (v : option session) (s : collector) : collector :=
  {| labels := labels s;
     _redfish_up := _redfish_up s;
     _last_http_code := _last_http_code s;
     powerstate := powerstate s;
     urls := urls s;
     server_health := server_health s;
     manufacturer := manufacturer s;
     model := model s;
     serial := serial s;
     _session_url := _session_url s;
     _auth_token := _auth_token s;
     _basic_auth := _basic_auth s;
     _session := v;
     redfish_version := redfish_version s;
     health_summary_metrics := health_summary_metrics s;
     _systems_url := _systems_url s;
     exchanges := exchanges s;
     urls_trace := urls_trace s |}.

Definition set_redfish_version (v : json) (s : collector) : collector :=
  {| labels := labels s;
     _redfish_up := _redfish_up s;
     _last_http_code := _last_http_code s;
     powerstate := powerstate s;
     urls := urls s;
     server_health := server_health s;
     manufacturer := manufacturer s;
     model := model s;
     serial := serial s;
     _session_url := _session_url s;
     _auth_token := _auth_token s;
     _basic_auth := _basic_auth s;
     _session := _session s;
     redfish_version := v;
     health_summary_metrics := health_summary_metrics s;
     _systems_url := _systems_url s;
     exchanges := exchanges s;
     urls_trace := urls_trace s |}.

Definition set_health_summary_metrics (v : list sample) (s : collector) : collector :=
  {| labels := labels s;
     _redfish_up := _redfish_up s;
     _last_http_code := _last_http_code s;
     powerstate := powerstate s;
     urls := urls s;
     server_health := server_health s;
     manufacturer := manufacturer s;
     model := model s;
     serial := serial s;
     _session_url := _session_url s;
     _auth_token := _auth_token s;
     _basic_auth := _basic_auth s;
     _session := _session s;
     redfish_version := redfish_version s;
     health_summary_metrics := v;
     _systems_url := _systems_url s;
     exchanges := exchanges s;
     urls_trace := urls_trace s |}.

Definition set__systems_url (v : option json) (s : collector) : collector :=
  {| labels := labels s;
     _redfish_up := _redfish_up s;
     _last_http_code := _last_http_code s;
     powerstate := powerstate s;
     urls := urls s;
     server_health := server_health s;
     manufacturer := manufacturer s;
     model := model s;
     serial := serial s;
     _session_url := _session_url s;
     _auth_token := _auth_token s;
     _basic_auth := _basic_auth s;
     _session := _session s;
     redfish_version := redfish_version s;
     health_summary_metrics := health_summary_metrics s;
     _systems_url := v;
     exchanges := exchanges s;
     urls_trace := urls_trace s |}.

(** [self.urls[k] = v] *)
Definition assign_url (k : string) (v : json) (s : collector) : collector :=
  {| labels := labels s;
     _redfish_up := _redfish_up s;
     _last_http_code := _last_http_code s;
     powerstate := powerstate s;
     urls := <[k:=v]> (urls s);
     server_health := server_health s;
     manufacturer := manufacturer s;
     model := model s;
     serial := serial s;
     _session_url := _session_url s;
     _auth_token := _auth_token s;
     _basic_auth := _basic_auth s;
     _session := _session s;
     redfish_version := redfish_version s;
     health_summary_metrics := health_summary_metrics s;
     _systems_url := _systems_url s;
     exchanges := exchanges s;
     urls_trace := urls_trace s ++ [<[k:=v]> (urls s)] |}.

Definition record_exchange (q : request) (o : outcome) (s : collector) : collector :=
  {| labels := labels s;
     _redfish_up := _redfish_up s;
     _last_http_code := _last_http_code s;
     powerstate := powerstate s;
     urls := urls s;
     server_health := server_health s;
     manufacturer := manufacturer s;
     model := model s;
     serial := serial s;
     _session_url := _session_url s;
     _auth_token := _auth_token s;
     _basic_auth := _basic_auth s;
     _session := _session s;
     redfish_version := redfish_version s;
     health_summary_metrics := health_summary_metrics s;
     _systems_url := _systems_url s;
     exchanges := exchanges s ++ [(q, o)];
     urls_trace := urls_trace s |}.

(** ** Methods as state transformers *)

(** How the evaluation of a block ends: it falls through with a value, it
    executes [return v], or it raises. *)
Inductive result (A : Type) : Type :=
  | Val (a : A)
  | Return (v : json)
  | Exc (e : exn).
Arguments Val {A} a.
Arguments Return {A} v.
Arguments Exc {A} e.

Definition M (A : Type) : Type := collector -> result A * collector.

Definition ret {A : Type} (a : A) : M A := fun s => (Val a, s).

Definition bind {A B : Type} (m : M A) (f : A -> M B) : M B := fun s =>
  match m s with
  | (Val a, s') => f a s'
  | (Return v, s') => (Return v, s')
  | (Exc e, s') => (Exc e, s')
  end.

Declare Scope py_scope.
Delimit Scope py_scope with py.
Bind Scope py_scope with M.
Notation "x ← y ; z" := (bind y%py (fun x => z%py))
  (at level 20, y at level 100, z at level 200, only parsing) : py_scope.
Notation "x ;; z" := (bind x%py (fun _ => z%py))
  (at level 100, z at level 200, only parsing, right associativity) : py_scope.
Local Open Scope py_scope.

Definition gets {A : Type} (f : collector -> A) : M A := fun s => (Val (f s), s).
Definition modify (f : collector -> collector) : M unit := fun s => (Val tt, f s).
Definition return_ {A : Type} (v : json) : M A := fun s => (Return v, s).
Definition raise {A : Type} (e : exn) : M A := fun s => (Exc e, s).

(** Evaluation of an expression that may raise. *)
Definition eval {A : Type} (r : res A) : M A := fun s =>
  match r with
  | Ok a => (Val a, s)
  | Raise e => (Exc e, s)
  end.

(** A method call: [return v] yields [v], falling off the end yields
    [None], an exception goes on to the caller. *)
Definition call {A : Type} (m : M A) : M json := fun s =>
  match m s with
  | (Val _, s') => (Val JNull, s')
  | (Return v, s') => (Val v, s')
  | (Exc e, s') => (Exc e, s')
  end.

Arguments ret {A} a s /.
Arguments bind {A B} m f s /.
Arguments gets {A} f s /.
Arguments modify f s /.
Arguments return_ {A} v s /.
Arguments raise {A} e s /.
Arguments eval {A} r s /.
Arguments call {A} m s /.

(** [for x in xs: body] *)
Fixpoint for_each {A : Type} (xs : list A) (body : A -> M unit) : M unit :=
  match xs with
  | [] => ret tt
  | x :: xs' => body x;; for_each xs' body
  end.

Arguments for_each {A} xs body : simpl never.

(** [self.urls[k]] *)
Definition get_url (k : string) : M json := fun s =>
  match urls s !! k with
  | Some v => (Val v, s)
  | None => (Exc KeyError, s)
  end.

(** [self.status] *)
Definition status : gmap string Z :=
  list_to_map [("ok", 0); ("operable", 0); ("enabled", 0); ("good", 0);
               ("critical", 1); ("error", 1); ("warning", 2); ("absent", 0)].

Definition power_states : gmap string Z :=
  list_to_map [("off", 0); ("on", 1)].

(** The debug output for a failed request (lines 287-314): its only
    effect is the exception an unexpected error body causes. *)
Definition log_error_hint (req_text : json) : res unit :=
  err ← Py.item req_text "error";
  _ ← Py.item err "code";
  _ ← Py.item err "message";
  has_info ← Py.contains "@Message.ExtendedInfo" err;
  if has_info then
    info ← Py.item err "@Message.ExtendedInfo";
    if Py.isinstance_list info then
      entry ← Py.first info;
      has_message ← Py.contains "Message" entry;
      if has_message then _ ← Py.item entry "Message"; Ok tt else Ok tt
    else if Py.isinstance_dict info then
      has_message ← Py.contains "Message" info;
      if has_message then _ ← Py.item info "Message"; Ok tt else Ok tt
    else Ok tt
  else Ok tt.

(** The local list [urls] of [get_chassis_urls]. *)
Definition chassis_keys : list string :=
  ["PowerSubsystem"; "Power"; "ThermalSubsystem"; "Thermal"].

(** The local lists [keys_direct] and [direct_keys] of [get_base_labels]. *)
Definition direct_keys : list string :=
  ["Processors"; "Memory"; "Storage"; "Power"; "Thermal"; "EthernetInterfaces"].

Section Collector.

(** The server scraped and the constructor arguments the methods use. *)
Variable w : remote.
Variables host usr pwd : string.

(** The collector as [__init__] leaves it. *)
Definition init : collector :=
  {| labels := {[ "host" := JStr host ]};
     _redfish_up := 0;
     _last_http_code := 0;
     powerstate := 0;
     urls := list_to_map
               [("Systems", JStr ""); ("SessionService", JStr "");
                ("Memory", JStr ""); ("ManagedBy", JStr "");
                ("Processors", JStr ""); ("Storage", JStr "");
                ("Chassis", JStr ""); ("Power", JStr "");
                ("Thermal", JStr ""); ("PowerSubsystem", JStr "");
                ("ThermalSubsystem", JStr ""); ("EthernetInterfaces", JStr "")];
     server_health := 0;
     manufacturer := JStr "";
     model := JStr "";
     serial := JStr "";
     _session_url := JStr "";
     _auth_token := JStr "";
     _basic_auth := false;
     _session := None;
     redfish_version := JStr "not available";
     health_summary_metrics := [];
     _systems_url := None;
     exchanges := [];
     urls_trace := [] |}.

(** [self._session.get(...)] or [.post(...)]: the request is answered by
    the server and entered in [exchanges]. *)
Definition send (q : request) : M outcome := fun s =>
  let o := w (List.length (exchanges s)) q in (Val o, record_exchange q o s).

(** The session object after the authentication branch of
    [connect_server] (lines 222-239). *)
Definition prepare_session (noauth basic_auth : bool) (s : collector) : session :=
  let current :=
    match _session s with
    | Some x => x
    | None => {| auth := None; x_auth_token := None |}
    end in
  if noauth then current
  else if basic_auth || _basic_auth s then
    {| auth := Some (usr, pwd); x_auth_token := x_auth_token current |}
  else
    {| auth := None; x_auth_token := Some (_auth_token s) |}.

Definition connect_server (command : json) (noauth basic_auth : bool) : M json :=
  call (A := unit) (
    modify (set__last_http_code 200);;
    via ← gets (prepare_session noauth basic_auth);
    modify (set__session (Some via));;
    o ← send (GET command via);
    req ← match o with
          | Responded r =>
              (if is_http_error r
               then modify (set__last_http_code (status_code r))
               else ret tt);;
              ret (Some r)
          | Failed ConnectTimeout => modify (set__last_http_code 408);; ret None
          | Failed ReadTimeout => modify (set__last_http_code 408);; ret None
          | Failed ConnectionError => modify (set__last_http_code 444);; ret None
          | Failed OtherRequestException => modify (set__last_http_code 500);; ret None
          end;
    match req with
    | None => return_ (JStr "")
    | Some r =>
        modify (set__last_http_code (status_code r));;
        let req_text := default (JStr "") (body r) in
        if ok r then return_ req_text
        else
          (if Py.truthy req_text then eval (log_error_hint req_text) else ret tt);;
          return_ (JStr "")
    end).

(** Lines 132-174: the session POST with its single retry.  The value is
    [result], [None] standing for the initial empty string. *)
Definition post_session (sessions_link : json) : M (option response) :=
  via ← gets (fun s => default {| auth := None; x_auth_token := None |} (_session s));
  let q := POST sessions_link usr pwd via in
  o ← send q;
  match o with
  | Responded r =>
      if is_http_error r then modify (set__basic_auth true);; ret (Some r)
      else ret (Some r)
  | Failed e =>
      if is_ConnectionError e then
        o' ← send q;
        match o' with
        | Responded r' =>
            if is_http_error r' then raise HTTPError else ret (Some r')
        | Failed e' =>
            if is_ConnectionError e' then modify (set__basic_auth true);; ret None
            else raise (RequestsError e')
        end
      else
        match e with
        | ReadTimeout => modify (set__basic_auth true);; ret None
        | _ => raise (RequestsError e)
        end
  end.

(** Lines 176-206: what is done with a 200/201 answer. *)
Definition accept_session (r : response) : M unit :=
  modify (set__auth_token (header "X-Auth-Token" (headers r)));;
  let session_url := header "Location" (headers r) in
  token ← gets _auth_token;
  if negb (Py.truthy token) then modify (set__redfish_up 0);; return_ JNull else
  session_url ←
    (if negb (Py.truthy session_url) then
       match body r with
       | Some json_body => eval (Py.get json_body "@odata.id" JNull)
       | None => ret session_url
       end
     else ret session_url);
  if negb (Py.truthy session_url) then modify (set__redfish_up 0);; return_ JNull else
  modify (set__session_url session_url);;
  modify (set__redfish_up 1).

(** Lines 86-128: the service root and the SessionService document are
    read; the value is the link of the Sessions collection. *)
Definition locate_sessions : M json :=
  server_response ← connect_server (JStr "/redfish/v1") true false;
  if negb (Py.truthy server_response) then return_ JNull else
  has_version ← eval (Py.contains "RedfishVersion" server_response);
  (if has_version
   then v ← eval (Py.item server_response "RedfishVersion");
        modify (set_redfish_version v)
   else ret tt);;
  for_each ["Systems"; "SessionService"] (fun key =>
    present ← eval (Py.contains key server_response);
    if present
    then v ← eval (link ← Py.item server_response key; Py.item link "@odata.id");
         modify (assign_url key v)
    else return_ JNull);;
  command ← get_url "SessionService";
  session_service ← connect_server command false true;
  code ← gets _last_http_code;
  if negb (code =? 200) then modify (set__basic_auth true);; return_ JNull else
  sessions_link ← eval (sessions ← Py.item session_service "Sessions";
                        Py.item sessions "@odata.id");
  modify (fun s => set__session
            (Some {| auth := None;
                     x_auth_token :=
                       x_auth_token (default {| auth := None; x_auth_token := None |}
                                             (_session s)) |}) s);;
  ret sessions_link.

Definition get_session : M json :=
  call (
    sessions_link ← locate_sessions;
    result ← post_session sessions_link;
    match result with
    | Some r =>
        if ok r && ((status_code r =? 200) || (status_code r =? 201))
        then accept_session r
        else ret tt
    | None => ret tt
    end).

(** Lines 523-524, the body of the loop of [get_chassis_urls]. *)
Definition set_chassis_url (chassis_data : json) (url : string) : M unit :=
  present ← eval (Py.contains url chassis_data);
  if present
  then v ← eval (link ← Py.item chassis_data url; Py.item link "@odata.id");
       modify (assign_url url v)
  else ret tt.

Definition get_chassis_urls : M json :=
  call (A := unit) (
    command ← get_url "Chassis";
    chassis_data ← connect_server command false false;
    if negb (Py.truthy chassis_data) then return_ JNull else
    for_each chassis_keys (set_chassis_url chassis_data);;
    return_ chassis_data).

(** [doc.get(key, {}).get("@odata.id", "")] *)
Definition link_of (doc : json) (key : string) : res json :=
  link ← Py.get doc key (JDict []);
  Py.get link "@odata.id" (JStr "").

(** [self.status.get(summary.get("Status", {}).get("Health", "").lower(), math.nan)] *)
Definition summary_health (summary : json) : res metric_value :=
  status_obj ← Py.get summary "Status" (JDict []);
  health ← Py.get status_obj "Health" (JStr "");
  key ← Py.lower health;
  Ok (match status !! key with Some code => Num code | None => NaN end).

Definition add_sample (x : sample) (s : collector) : collector :=
  set_health_summary_metrics (health_summary_metrics s ++ [x]) s.

(** Lines 321-341: the first member of the Systems collection is
    fetched; the value is [server_info]. *)
Definition fetch_server_info : M json :=
  command ← get_url "Systems";
  systems ← connect_server command false false;
  if negb (Py.truthy systems) then return_ JNull else
  members ← eval (Py.get systems "Members" (JList []));
  if negb (Py.truthy members) then return_ JNull else
  systems_url ← eval (member ← Py.first members; Py.get member "@odata.id" JNull);
  modify (set__systems_url (Some systems_url));;
  if negb (Py.truthy systems_url) then return_ JNull else
  server_info ← connect_server systems_url false false;
  if negb (Py.truthy server_info) then return_ JNull else
  ret server_info.

(** Lines 342-364 *)
Definition extract_labels (server_info : json) : M unit :=
  v ← eval (link_of server_info "EthernetInterfaces");
  modify (assign_url "EthernetInterfaces" v);;
  v ← eval (Py.get server_info "Manufacturer" (JStr "Custom"));
  modify (set_manufacturer v);;
  v ← eval (Py.get server_info "Model" (JStr "unknown"));
  modify (set_model v);;
  v ← eval (Py.get server_info "SerialNumber" (JStr ""));
  modify (set_serial v);;
  the_manufacturer ← gets manufacturer;
  the_model ← gets model;
  if negb (Py.truthy the_manufacturer) || negb (Py.truthy the_model)
  then return_ JNull else
  power_state_raw ← eval (v ← Py.get server_info "PowerState" (JStr "off"); Py.lower v);
  modify (set_powerstate (default 0 (power_states !! power_state_raw)));;
  modify (fun s =>
    set_labels (<["server_serial" := serial s]>
               (<["server_model" := model s]>
               (<["server_manufacturer" := manufacturer s]>
               (<["host" := JStr host]> (labels s))))) s).

(** Lines 366-396 *)
Definition store_health (server_info : json) : M unit :=
  status_obj ← eval (Py.get server_info "Status" (JDict []));
  health ← eval (v ← Py.get status_obj "Health" (JStr ""); Py.lower v);
  modify (set_server_health (default 0 (status !! health)));;
  processor_summary ← eval (Py.get server_info "ProcessorSummary" (JDict []));
  (if Py.truthy processor_summary then
     cpu_model ← eval (Py.get processor_summary "Model" (JStr "unknown"));
     cpu_count ← eval (Py.get processor_summary "Count" (JStr "unknown"));
     value ← eval (summary_health processor_summary);
     modify (fun s =>
       add_sample
         {| sample_labels :=
              labels s ∪ <["device_type" := JStr "processor_summary"]>
                         (<["cpu_model" := cpu_model]>
                         (<["cpu_count" := Py.str cpu_count]> ∅));
            sample_value := value |} s)
   else ret tt);;
  memory_summary ← eval (Py.get server_info "MemorySummary" (JDict []));
  (if Py.truthy memory_summary then
     total ← eval (Py.get memory_summary "TotalSystemMemory" (JStr "unknown"));
     value ← eval (summary_health memory_summary);
     modify (fun s =>
       add_sample
         {| sample_labels :=
              labels s ∪ <["device_type" := JStr "memory_summary"]>
                         (<["total_system_memory_gb" := Py.str total]> ∅);
            sample_value := value |} s)
   else ret tt).

(** Lines 404-413, for [name] among [Chassis] and [ManagedBy]. *)
Definition set_first_link (server_info : json) (name : string) : M unit :=
  refs ← eval (links ← Py.get server_info "Links" (JDict []);
               Py.get links name (JList []));
  if Py.truthy refs then
    ref ← eval (Py.first refs);
    v ← eval (if Py.isinstance_dict ref then Py.item ref "@odata.id" else Ok ref);
    modify (assign_url name v)
  else ret tt.

(** Lines 399-418 *)
Definition set_component_urls (server_info : json) : M unit :=
  for_each direct_keys (fun key =>
    v ← eval (link_of server_info key);
    modify (assign_url key v));;
  set_first_link server_info "Chassis";;
  set_first_link server_info "ManagedBy";;
  _ ← get_chassis_urls;
  ret tt.

(** Lines 493-507, for [name] among [Chassis] and [ManagedBy]. *)
Definition reset_first_link (server_info : json) (name : string) : M unit :=
  refs ← eval (links ← Py.get server_info "Links" (JDict []);
               Py.get links name (JList []));
  if Py.truthy refs then
    ref ← eval (Py.first refs);
    if Py.isinstance_dict ref then
      v ← eval (Py.get ref "@odata.id" (JStr ""));
      modify (assign_url name v)
    else if Py.isinstance_str ref then modify (assign_url name ref)
    else ret tt
  else ret tt.

(** Lines 488-512: the statements that follow the commented-out older
    version of the method; they are part of the live body. *)
Definition extract_component_paths (server_info : json) : M unit :=
  for_each direct_keys (fun key =>
    v ← eval (link_of server_info key);
    modify (assign_url key v));;
  reset_first_link server_info "Chassis";;
  reset_first_link server_info "ManagedBy";;
  _ ← get_chassis_urls;
  ret tt.

(** Lines 321-418: the method up to and including its first call of
    [get_chassis_urls]. *)
Definition discover_system : M json :=
  server_info ← fetch_server_info;
  extract_labels server_info;;
  store_health server_info;;
  set_component_urls server_info;;
  ret server_info.

Definition get_base_labels : M json :=
  call (
    server_info ← discover_system;
    extract_component_paths server_info).

(** [collect] up to the end of its call of [get_base_labels] (lines
    569-572).  The statements that follow (lines 574-662) hand the
    collector and its [connect_server] to the collectors of other
    modules, which send requests of their own; they and the metric
    families the method yields are not part of the model. *)
Definition collect : M json :=
  call (
    up ← gets _redfish_up;
    if up =? 0 then return_ JNull else
    _ ← get_base_labels;
    ret tt).

(** One scrape as far as the methods above go: the session is
    negotiated, then [collect] runs to the end of [get_base_labels]. *)
Definition scrape : M json :=
  call (
    _ ← get_session;
    _ ← collect;
    ret tt).

End Collector.

Arguments prepare_session usr pwd noauth basic_auth s : simpl never.

(** ** Properties stated about the methods *)

(** [I] holds after [m] whenever it holds before, however [m] ends. *)
Definition invariant {A : Type} (I : collector -> Prop) (m : M A) : Prop :=
  forall s, I s -> I (m s).2.

(** A property that the bookkeeping of [connect_server] cannot disturb. *)
Definition transport_blind (I : collector -> Prop) : Prop :=
  (forall c s, I s -> I (set__last_http_code c s)) /\
  (forall x s, I s -> I (set__session x s)) /\
  (forall q o s, I s -> I (record_exchange q o s)).

(** What a call of [get_chassis_urls] leaves as it was: every entry of
    [urls] outside [chassis_keys], the identity fields, the labels, the
    health code and the up flag. *)
Definition chassis_frame (s s' : collector) : Prop :=
  (forall k, k ∉ chassis_keys -> urls s' !! k = urls s !! k) /\
  manufacturer s' = manufacturer s /\
  model s' = model s /\
  serial s' = serial s /\
  labels s' = labels s /\
  server_health s' = server_health s /\
  _redfish_up s' = _redfish_up s.

(** The claim that [get_chassis_urls] does nothing when the Chassis URL
    is empty: no request, a normal return, the same resource map. *)
Definition chassis_step_is_noop (w : remote) (usr pwd : string) (s : collector) : Prop :=
  exchanges (get_chassis_urls w usr pwd s).2 = exchanges s /\
  (exists v, (get_chassis_urls w usr pwd s).1 = Val v) /\
  urls (get_chassis_urls w usr pwd s).2 = urls s.

(** A server whose bare root answers with a JSON object that has a
    [Power] member. *)
Definition root_answers_json : remote := fun _ _ =>
  Responded {| status_code := 200;
               headers := [];
               body := Some (JDict [("Power", JDict [("@odata.id", JStr "/power")])]) |}.









(** The status [connect_server] leaves in [_last_http_code] for an
    outcome of its request. *)
Definition recorded_status (o : outcome) : Z :=
  match o with
  | Responded r => status_code r
  | Failed ConnectTimeout => 408
  | Failed ReadTimeout => 408
  | Failed ConnectionError => 444
  | Failed OtherRequestException => 500
  end.

(** What [connect_server] hands back for an outcome of its request: the
    decoded body of an answer below 400, the empty string otherwise, or
    the exception of its debug output. *)
Definition fetched (o : outcome) : res json :=
  match o with
  | Responded r =>
      let req_text := default (JStr "") (body r) in
      if ok r then Ok req_text
      else if Py.truthy req_text
           then res_bind (log_error_hint req_text) (fun _ => Ok (JStr ""))
           else Ok (JStr "")
  | Failed _ => Ok (JStr "")
  end.

(** The collector after [connect_server] sent [q] through [via] and got [o]. *)
Definition after_fetch (via : session) (q : request) (o : outcome) (s : collector) : collector :=
  set__last_http_code (recorded_status o)
    (record_exchange q o (set__session (Some via) s)).

(** The exchanges after which [get_session] has switched to basic
    authentication, read off the source: the SessionService read (the
    second request) ended with a recorded status other than 200 and
    [connect_server] returned; or the first POST (the third request) was
    answered with a 4xx or 5xx status; or it timed out on read; or it
    failed on a connection error and so did the one retry. *)
Definition basic_auth_cases (tr : list (request * outcome)) : Prop :=
  match tr with
  | [_; (_, o)] => recorded_status o <> 200 /\ exists doc, fetched o = Ok doc
  | [_; _; (_, Responded r)] => is_http_error r = true
  | [_; _; (_, Failed e)] => e = ReadTimeout
  | [_; _; (_, Failed e); (_, Failed e')] =>
      is_ConnectionError e = true /\ is_ConnectionError e' = true
  | _ => False
  end.


(** The credentials an authenticated [connect_server] call attaches
    (lines 233-239): basic authentication when [_basic_auth] is set, the
    token header otherwise; without flag and without token the session is
    unauthenticated. *)
Inductive auth_mode : Type :=
  | Unauthenticated
  | TokenAuth
  | BasicAuth.

Definition session_mode (s : collector) : auth_mode :=
  if _basic_auth s then BasicAuth
  else if Py.truthy (_auth_token s) then TokenAuth
  else Unauthenticated.

(** The decoded body of the answer to the first request of the scrape,
    the GET of [/redfish/v1]. *)
Definition root_document (s : collector) : option json :=
  match exchanges s with
  | (_, Responded r) :: _ => body r
  | _ => None
  end.

(** [doc[key]['@odata.id']] *)
Definition link_target (doc : json) (key : string) : res json :=
  res_bind (Py.item doc key) (fun link => Py.item link "@odata.id").

(** A URL that is there: a string other than the empty one. *)
Definition non_empty_url (v : json) : Prop :=
  exists u, v = JStr u /\ u <> "".

(** The invariant as the specification words it. *)
Definition stated_up_invariant (s : collector) : Prop :=
  _redfish_up s = 1 ->
  session_mode s <> Unauthenticated /\
  exists v, urls s !! "Systems" = Some v /\ non_empty_url v.

(** Test servers.  [answer] is a 2xx/3xx/4xx answer with a JSON body. *)
Definition link (u : string) : json := JDict [("@odata.id", JStr u)].

Definition answer (code : Z) (hs : list (string * string)) (doc : json) : outcome :=
  Responded {| status_code := code; headers := hs; body := Some doc |}.

Definition service_root (systems : string) : json :=
  JDict [("RedfishVersion", JStr "1.6.0");
         ("Systems", link systems);
         ("SessionService", link "/redfish/v1/SessionService")].

Definition session_service_document : json :=
  JDict [("Sessions", link "/redfish/v1/SessionService/Sessions")].

Definition session_created_response : response :=
  {| status_code := 201;
     headers := [("X-Auth-Token", "0123abcd");
                 ("Location", "/redfish/v1/SessionService/Sessions/7")];
     body := Some (JDict []) |}.

Definition session_created : outcome := Responded session_created_response.


(** The service root advertises a Systems link whose URL is empty. *)
Definition empty_systems_link : remote := fun n _ =>
  match n with
  | 0%nat => answer 200 [] (service_root "")
  | 1%nat => answer 200 [] session_service_document
  | 2%nat => session_created
  | _ => Failed ConnectionError
  end.

(** The SessionService document has no [Sessions] member. *)
Definition no_sessions_member : remote := fun n _ =>
  match n with
  | 0%nat => answer 200 [] (service_root "/redfish/v1/Systems")
  | 1%nat => answer 200 [] (JDict [("@odata.id", JStr "/redfish/v1/SessionService");
                                   ("ServiceEnabled", JBool true)])
  | _ => Failed ConnectionError
  end.

(** A server that lets a session be created. *)
Definition grants_session : remote := fun n _ =>
  match n with
  | 0%nat => answer 200 [] (service_root "/redfish/v1/Systems")
  | 1%nat => answer 200 [] session_service_document
  | 2%nat => session_created
  | _ => Failed ConnectionError
  end.

(** Every key of [urls] that [get_base_labels] assigns to. *)
Definition discovered_keys : list string :=
  "EthernetInterfaces" :: direct_keys ++ ["Chassis"; "ManagedBy"] ++ chassis_keys.

(** A property that no statement of [get_base_labels] can disturb. *)
Definition discovery_safe (I : collector -> Prop) : Prop :=
  transport_blind I /\
  (forall v s, I s -> I (set__systems_url v s)) /\
  (forall v s, I s -> I (set_manufacturer v s)) /\
  (forall v s, I s -> I (set_model v s)) /\
  (forall v s, I s -> I (set_serial v s)) /\
  (forall v s, I s -> I (set_powerstate v s)) /\
  (forall v s, I s -> I (set_labels v s)) /\
  (forall v s, I s -> I (set_server_health v s)) /\
  (forall v s, I s -> I (set_health_summary_metrics v s)) /\
  (forall k v s, k ∈ discovered_keys -> I s -> I (assign_url k v s)).

(** What the discovery after [get_session] leaves as it was. *)
Definition session_frame (s0 s : collector) : Prop :=
  _redfish_up s = _redfish_up s0 /\
  _auth_token s = _auth_token s0 /\
  _session_url s = _session_url s0 /\
  _basic_auth s = _basic_auth s0 /\
  urls s !! "Systems" = urls s0 !! "Systems" /\
  exists later, exchanges s = (exchanges s0 ++ later)%list.

(** Every request is answered with 401 and an error body that has no
    [error] member. *)
Definition unauthorized_plain : remote := fun _ _ =>
  answer 401 [] (JDict [("message", JStr "Unauthorized")]).

(** The system resource reports [Status.Health] as [null]. *)
Definition health_is_null : remote := fun n _ =>
  match n with
  | 0%nat => answer 200 [] (service_root "/redfish/v1/Systems")
  | 1%nat => answer 200 [] session_service_document
  | 2%nat => session_created
  | 3%nat => answer 200 [] (JDict [("Members", JList [link "/redfish/v1/Systems/1"])])
  | 4%nat => answer 200 []
               (JDict [("Manufacturer", JStr "Contoso");
                       ("Model", JStr "3500");
                       ("SerialNumber", JStr "437XR1138R2");
                       ("PowerState", JStr "On");
                       ("Status", JDict [("State", JStr "Enabled"); ("Health", JNull)])])
  | _ => Failed ConnectionError
  end.



(** [info["Links"][name][0]], where [get_base_labels] reads it: the
    list is there and not empty. *)
Definition first_ref (info : json) (name : string) (ref : json) : Prop :=
  exists refs,
    res_bind (Py.get info "Links" (JDict [])) (fun links => Py.get links name (JList []))
      = Ok refs /\
    Py.truthy refs = true /\
    Py.first refs = Ok ref.



(** ** The resource map over one discovery pass *)

(** On the watched keys, an entry that is the empty string in [m'] was
    the empty string in [m] already. *)
Definition never_cleared (watched : string -> Prop) (m m' : gmap string json) : Prop :=
  forall k, watched k -> m' !! k = Some (JStr "") -> m !! k = Some (JStr "").

(** The maps [l] follow [m] one after the other and end in [final]
    without clearing a watched entry. *)
Fixpoint chain (watched : string -> Prop) (m : gmap string json)
    (l : list (gmap string json)) (final : gmap string json) : Prop :=
  match l with
  | [] => m = final
  | m' :: l' => never_cleared watched m m' /\ chain watched m' l' final
  end.

(** The values of [urls] during a run from [s] to [s']: the map at the
    start, then the map after each assignment of the run. *)
Definition pass_points (s s' : collector) : list (gmap string json) :=
  urls s :: drop (List.length (urls_trace s)) (urls_trace s').

(** A watched entry that holds a non-empty URL at some point is not the
    empty string at any later point. *)
Definition append_only_on (watched : string -> Prop)
    (points : list (gmap string json)) : Prop :=
  forall i j m m' k v,
    watched k -> (i <= j)%nat ->
    points !! i = Some m -> points !! j = Some m' ->
    m !! k = Some v -> v <> JStr "" -> m' !! k <> Some (JStr "").

Definition every_key : string -> Prop := fun _ => True.

Definition not_power_or_thermal : string -> Prop :=
  fun k => k <> "Power" /\ k <> "Thermal".

(** The run from [s] has reached [x] without clearing a watched entry. *)
Definition tracked (watched : string -> Prop) (s x : collector) : Prop :=
  exists suffix,
    urls_trace x = (urls_trace s ++ suffix)%list /\
    chain watched (urls s) suffix (urls x).

(** The server never serves an empty URL in a PowerSubsystem, Power,
    ThermalSubsystem or Thermal link. *)
Definition serves_no_empty_chassis_link (w : remote) : Prop :=
  forall n q r d k lnk,
    w n q = Responded r -> body r = Some (JDict d) ->
    k ∈ chassis_keys -> Py.assoc k d = Some lnk ->
    Py.item lnk "@odata.id" <> Ok (JStr "").

(** The entries that the discovery is about to fill are still empty. *)
Definition fresh (x : collector) : Prop :=
  forall k, k ∈ discovered_keys -> urls x !! k = Some (JStr "").

(** Each entry for [keys] is still empty or already holds the link that
    the system resource [info] gives for it. *)
Definition settled (info : json) (keys : list string) (x : collector) : Prop :=
  forall k, k ∈ keys ->
    urls x !! k = Some (JStr "") \/
    exists v, link_of info k = Ok v /\ urls x !! k = Some v.

(** The entry [name] is still empty or already holds the first
    reference that [info] lists under [Links]. *)
Definition first_link_settled (info : json) (name : string) (x : collector) : Prop :=
  urls x !! name = Some (JStr "") \/
  exists ref v,
    first_ref info name ref /\
    (if Py.isinstance_dict ref then Py.item ref "@odata.id" else Ok ref) = Ok v /\
    urls x !! name = Some v.

(** What holds between the statements of [get_base_labels] once the
    system resource [info] is there. *)
Definition discovering (watched : string -> Prop) (keys : list string)
    (s : collector) (info : json) (x : collector) : Prop :=
  tracked watched s x /\
  settled info keys x /\
  first_link_settled info "Chassis" x /\
  first_link_settled info "ManagedBy" x.

(** [P] before [m] gives [Q a] when [m] falls through with [a], and [X]
    when it returns or raises. *)
Definition triple {A : Type} (P : collector -> Prop) (m : M A)
    (Q : A -> collector -> Prop) (X : collector -> Prop) : Prop :=
  forall s, P s ->
    match (m s).1 with
    | Val a => Q a (m s).2
    | _ => X (m s).2
    end.

(** The chassis document serves an empty Power URL over a system-level
    Power link. *)
Definition system_resource (members : list (string * json)) : json :=
  JDict (("Manufacturer", JStr "Contoso") :: ("Model", JStr "3500") ::
         ("SerialNumber", JStr "437XR1138R2") :: ("PowerState", JStr "On") ::
         ("Links", JDict [("Chassis", JList [link "/redfish/v1/Chassis/1"])]) ::
         members).

Definition empty_chassis_power : remote := fun n _ =>
  match n with
  | 0%nat => answer 200 [] (service_root "/redfish/v1/Systems")
  | 1%nat => answer 200 [] session_service_document
  | 2%nat => session_created
  | 3%nat => answer 200 [] (JDict [("Members", JList [link "/redfish/v1/Systems/1"])])
  | 4%nat => answer 200 [] (system_resource [("Power", link "/redfish/v1/Systems/1/Power")])
  | 5%nat => answer 200 [] (JDict [("Power", link "")])
  | _ => Failed ConnectionError
  end.

(** Power is linked by the chassis only; the second fetch of the chassis
    fails. *)
Definition chassis_only_power : remote := fun n _ =>
  match n with
  | 0%nat => answer 200 [] (service_root "/redfish/v1/Systems")
  | 1%nat => answer 200 [] session_service_document
  | 2%nat => session_created
  | 3%nat => answer 200 [] (JDict [("Members", JList [link "/redfish/v1/Systems/1"])])
  | 4%nat => answer 200 [] (system_resource [])
  | 5%nat => answer 200 [] (JDict [("Power", link "/redfish/v1/Chassis/1/Power")])
  | _ => Failed ReadTimeout
  end.

(** The direct keys that [get_chassis_urls] never assigns. *)
Definition stable_keys : list string :=
  ["Processors"; "Memory"; "Storage"; "EthernetInterfaces"].

(** The collector after the session has been negotiated with [w]. *)
Definition after_session (w : remote) : collector :=
  (get_session w "admin" "secret" (init "bmc")).2.


(** The first session POST fails on a connection error and the retry is
    answered with 503. *)
Definition retry_refused : remote := fun n _ =>
  match n with
  | 0%nat => answer 200 [] (service_root "/redfish/v1/Systems")
  | 1%nat => answer 200 [] session_service_document
  | 2%nat => Failed ConnectionError
  | 3%nat => Responded {| status_code := 503; headers := []; body := None |}
  | _ => Failed ConnectionError
  end.


(** ** Teardown and further statements about the methods *)

(** The request of [__exit__] (lines 676-678): a DELETE for the session
    URL that goes out through [requests.delete], not through the
    collector's session, with the token as its only header. *)
Inductive delete_request : Type :=
  | DELETE (command : json) (token : json).

(** What [__exit__] does to the outside: the DELETE it issued, if any,
    and whether it closed the collector's session.  It assigns no
    attribute of the collector. *)
Record teardown : Type := {
  deleted : option delete_request;
  session_closed : bool;
}.

(** [__exit__] (lines 664-706); [d] is the server's outcome for the
    DELETE.  Every [net_error] is a [RequestException], which the handler
    of line 681 catches. *)
Definition __exit__ (d : delete_request -> outcome) (s : collector) : result json * teardown :=
  let closed := match _session s with Some _ => true | None => false end in
  if Py.truthy (_auth_token s) then
    let q := DELETE (_session_url s) (_auth_token s) in
    match d q with
    | Responded _ => (Val JNull, {| deleted := Some q; session_closed := closed |})
    | Failed _ => (Val JNull, {| deleted := Some q; session_closed := closed |})
    end
  else (Val JNull, {| deleted := None; session_closed := closed |}).

(** Every request fails with a read timeout. *)
Definition times_out : remote := fun _ _ => Failed ReadTimeout.


(** The entries of [urls] that [get_session] assigns (line 100). *)
Definition negotiation_keys : list string := ["Systems"; "SessionService"].

(** What [get_session] leaves as it was: every entry of [urls] outside
    [negotiation_keys] and everything that the discovery fills in. *)
Definition negotiation_frame (s s' : collector) : Prop :=
  (forall k, k ∉ negotiation_keys -> urls s' !! k = urls s !! k) /\
  labels s' = labels s /\
  manufacturer s' = manufacturer s /\
  model s' = model s /\
  serial s' = serial s /\
  powerstate s' = powerstate s /\
  server_health s' = server_health s /\
  health_summary_metrics s' = health_summary_metrics s /\
  _systems_url s' = _systems_url s.

(** The session object without credentials and the one with basic
    authentication only. *)
Definition anonymous : session := {| auth := None; x_auth_token := None |}.

Definition with_password (usr pwd : string) : session :=
  {| auth := Some (usr, pwd); x_auth_token := None |}.

(** The requests of one [get_session] run on a new collector, read off
    the source: the service root without credentials (line 86); then the
    SessionService link of the root document with basic authentication
    (line 112); then the POST of the credentials to the Sessions link of
    the SessionService document, without basic authentication (lines
    126-135); then the same POST once more, only after the first failed
    on a connection error (line 144). *)
Definition negotiation_requests (usr pwd : string) (tr : list (request * outcome)) : Prop :=
  match tr with
  | [(q0, _)] => q0 = GET (JStr "/redfish/v1") anonymous
  | [(q0, o0); (q1, _)] =>
      q0 = GET (JStr "/redfish/v1") anonymous /\
      exists doc c, fetched o0 = Ok doc /\ link_target doc "SessionService" = Ok c /\
                    q1 = GET c (with_password usr pwd)
  | [(q0, o0); (q1, o1); (q2, _)] =>
      q0 = GET (JStr "/redfish/v1") anonymous /\
      exists doc c ss c', fetched o0 = Ok doc /\ link_target doc "SessionService" = Ok c /\
                    q1 = GET c (with_password usr pwd) /\
                    fetched o1 = Ok ss /\ link_target ss "Sessions" = Ok c' /\
                    q2 = POST c' usr pwd anonymous
  | [(q0, o0); (q1, o1); (q2, o2); (q3, _)] =>
      q0 = GET (JStr "/redfish/v1") anonymous /\
      exists doc c ss c' e, fetched o0 = Ok doc /\ link_target doc "SessionService" = Ok c /\
                    q1 = GET c (with_password usr pwd) /\
                    fetched o1 = Ok ss /\ link_target ss "Sessions" = Ok c' /\
                    q2 = POST c' usr pwd anonymous /\
                    o2 = Failed e /\ is_ConnectionError e = true /\
                    q3 = q2
  | _ => False
  end.

(** The SessionService read is refused with 401 and an empty body. *)
Definition refuses_session_service : remote := fun n _ =>
  match n with
  | 0%nat => answer 200 [] (service_root "/redfish/v1/Systems")
  | _ => Responded {| status_code := 401; headers := []; body := None |}
  end.

(** The service root has a Systems link and no SessionService link. *)
Definition root_without_session_service : remote := fun _ _ =>
  answer 200 [] (JDict [("RedfishVersion", JStr "1.6.0");
                        ("Systems", link "/redfish/v1/Systems")]).

(** The session POST is answered with 201 and a token, without a
    [Location] header and without an [@odata.id] member in the body. *)
Definition token_without_location : remote := fun n _ =>
  match n with
  | 0%nat => answer 200 [] (service_root "/redfish/v1/Systems")
  | 1%nat => answer 200 [] session_service_document
  | 2%nat => answer 201 [("X-Auth-Token", "0123abcd")] (JDict [("Id", JStr "7")])
  | _ => Failed ConnectionError
  end.

(** The server's outcome for the DELETE of the teardown: it fails. *)
Definition delete_fails : delete_request -> outcome := fun _ => Failed ConnectionError.

(** [info.get("Links", {}).get(name, [])], the list that both versions
    of the link extraction read. *)
Definition link_list (info : json) (name : string) : res json :=
  res_bind (Py.get info "Links" (JDict [])) (fun links => Py.get links name (JList [])).

(** A system resource whose chassis reference is a bare string. *)
Definition bare_chassis_reference : json :=
  JDict [("Links", JDict [("Chassis", JList [JStr "/redfish/v1/Chassis/1"])])].

(** The keys that [get_base_labels] writes into [labels] (lines 359-364). *)
Definition label_keys : list string :=
  ["host"; "server_manufacturer"; "server_model"; "server_serial"].

(** A system resource that is powered on, spelt in capitals. *)
Definition powered_on : list (string * json) :=
  [("Manufacturer", JStr "Contoso"); ("Model", JStr "3500");
   ("SerialNumber", JStr "437XR1138R2"); ("PowerState", JStr "On")].

(** A Systems collection and a server that serves it: two members, then
    timeouts. *)
Definition two_systems : json :=
  JDict [("Members", JList [link "/redfish/v1/Systems/1"; link "/redfish/v1/Systems/2"])].

Definition serves_two_systems : remote := fun n _ =>
  match n with
  | 0%nat => answer 200 [] two_systems
  | _ => Failed ReadTimeout
  end.

(** A Systems collection without members. *)
Definition serves_no_systems : remote := fun _ _ =>
  answer 200 [] (JDict [("Name", JStr "Computer System Collection"); ("Members", JList [])]).

(** A collector that knows where the Systems collection is. *)
Definition knows_systems : collector :=
  assign_url "Systems" (JStr "/redfish/v1/Systems") (init "bmc").

(** Since [s], at most [k] requests were sent, each of them a GET
    through the session object [via]. *)
Definition sent_through (via : session) (k : nat) (s x : collector) : Prop :=
  exists later,
    exchanges x = (exchanges s ++ later)%list /\
    (List.length later <= k)%nat /\
    Forall (fun e : request * outcome => exists command, e.1 = GET command via) later.

(** The session object of an authenticated [connect_server] call is
    [via] before [m] and after it, and [m] sends at most [k] requests,
    all of them through [via]. *)
Definition steps (usr pwd : string) (via : session) {A : Type} (k : nat) (m : M A) : Prop :=
  forall s, prepare_session usr pwd false false s = via ->
    prepare_session usr pwd false false (m s).2 = via /\
    sent_through via k s (m s).2.

(** [m] sends nothing and leaves the session object alone. *)
Definition quiet (usr pwd : string) {A : Type} (m : M A) : Prop :=
  forall via E,
    invariant (fun x => prepare_session usr pwd false false x = via /\ exchanges x = E) m.

(** A system resource with a processor summary and an empty memory
    summary. *)
Definition processor_summary_only : json :=
  JDict [("ProcessorSummary",
          JDict [("Count", JInt 2); ("Model", JStr "Xeon");
                 ("Status", JDict [("Health", JStr "OK")])]);
         ("MemorySummary", JDict [])].

(** The entry [Chassis] of the resource map holds [v]; only the link
    extraction for [Chassis] assigns it. *)
Definition chassis_entry (v : option json) (x : collector) : Prop :=
  urls x !! "Chassis" = v.
(** ** Reasoning about methods *)

Lemma for_each_nil {A} (body : A -> M unit) : for_each [] body = ret tt.
Proof. reflexivity. Qed.

Lemma for_each_cons {A} (x : A) xs (body : A -> M unit) :
  for_each (x :: xs) body = bind (body x) (fun _ => for_each xs body).
Proof. reflexivity. Qed.

Section Invariants.

Context (I : collector -> Prop).

Lemma inv_ret {A} (a : A) : invariant I (ret a).
Proof. intros s Hs. exact Hs. Qed.

Lemma inv_gets {A} (f : collector -> A) : invariant I (gets f).
Proof. intros s Hs. exact Hs. Qed.

Lemma inv_return {A} v : invariant I (return_ (A := A) v).
Proof. intros s Hs. exact Hs. Qed.

Lemma inv_raise {A} e : invariant I (raise (A := A) e).
Proof. intros s Hs. exact Hs. Qed.

Lemma inv_eval {A} (r : res A) : invariant I (eval r).
Proof. intros s Hs. unfold eval. destruct r; exact Hs. Qed.

Lemma inv_get_url k : invariant I (get_url k).
Proof. intros s Hs. unfold get_url. destruct (urls s !! k); exact Hs. Qed.

Lemma inv_modify f : (forall s, I s -> I (f s)) -> invariant I (modify f).
Proof. intros Hf s Hs. apply Hf, Hs. Qed.

Lemma inv_bind {A B} (m : M A) (f : A -> M B) :
  invariant I m -> (forall a, invariant I (f a)) -> invariant I (bind m f).
Proof.
  intros Hm Hf s Hs. unfold bind. specialize (Hm s Hs).
  destruct (m s) as [[a | v | e] s1]; simpl in *; try exact Hm.
  apply Hf, Hm.
Qed.

Lemma inv_call {A} (m : M A) : invariant I m -> invariant I (call m).
Proof.
  intros Hm s Hs. unfold call. specialize (Hm s Hs).
  destruct (m s) as [[a | v | e] s1]; exact Hm.
Qed.

Lemma inv_for_each {A} (xs : list A) (body : A -> M unit) :
  (forall x, x ∈ xs -> invariant I (body x)) -> invariant I (for_each xs body).
Proof.
  induction xs as [| x xs IH]; intros Hbody;
    [rewrite for_each_nil | rewrite for_each_cons].
  - apply inv_ret.
  - apply inv_bind.
    + apply Hbody. left.
    + intros _. apply IH. intros y Hy. apply Hbody. right. exact Hy.
Qed.

End Invariants.

(** Syntax-directed use of the rules above. *)
Ltac inv_step :=
  lazymatch goal with
  | |- invariant _ (bind _ _) => apply inv_bind; [| intros ?]
  | |- invariant _ (ret _) => apply inv_ret
  | |- invariant _ (gets _) => apply inv_gets
  | |- invariant _ (return_ _) => apply inv_return
  | |- invariant _ (raise _) => apply inv_raise
  | |- invariant _ (eval _) => apply inv_eval
  | |- invariant _ (get_url _) => apply inv_get_url
  | |- invariant _ (call _) => apply inv_call
  | |- invariant _ (modify _) => apply inv_modify
  | |- invariant _ (if ?b then _ else _) => destruct b
  | |- invariant _ (match ?x with _ => _ end) => destruct x
  end.

Lemma connect_server_invariant w usr pwd I command noauth basic_auth :
  transport_blind I -> invariant I (connect_server w usr pwd command noauth basic_auth).
Proof.
  intros (Hcode & Hsess & Hex). unfold connect_server, send.
  repeat first [ inv_step | solve [auto] ].
  intros s Hs. simpl. auto.
Qed.

(** Membership among the literal key lists of the methods. *)
Ltac member :=
  unfold discovered_keys, direct_keys, chassis_keys, stable_keys in *; simpl in *;
  repeat match goal with
         | H : context [_ ∈ _ :: _] |- _ => rewrite elem_of_cons in H
         end;
  rewrite ?elem_of_cons; intuition (subst; auto).

Lemma get_chassis_urls_invariant w usr pwd I :
  transport_blind I ->
  (forall k v s, k ∈ chassis_keys -> I s -> I (assign_url k v s)) ->
  invariant I (get_chassis_urls w usr pwd).
Proof.
  intros Hblind Hassign. unfold get_chassis_urls.
  apply inv_call, inv_bind; [apply inv_get_url |]. intros command.
  apply inv_bind; [apply connect_server_invariant, Hblind |].
  intros chassis_data. destruct (negb (Py.truthy chassis_data)); [apply inv_return |].
  apply inv_bind; [| intros _; apply inv_return].
  apply inv_for_each. intros url Hurl. unfold set_chassis_url.
  apply inv_bind; [apply inv_eval |]. intros [|]; [| apply inv_ret].
  apply inv_bind; [apply inv_eval |]. intros v.
  apply inv_modify. intros s1. apply Hassign, Hurl.
Qed.

(** ** [connect_server] in closed form *)

Lemma connect_server_eq w usr pwd command noauth basic_auth s :
  let via := prepare_session usr pwd noauth basic_auth s in
  let q := GET command via in
  let o := w (List.length (exchanges s)) q in
  connect_server w usr pwd command noauth basic_auth s
  = (match fetched o with Ok v => Val v | Raise e => Exc e end, after_fetch via q o s).
Proof.
  unfold connect_server, send. simpl.
  change (prepare_session usr pwd noauth basic_auth (set__last_http_code 200 s))
    with (prepare_session usr pwd noauth basic_auth s).
  destruct (w _ _) as [r | []]; simpl; try reflexivity.
  unfold ok. destruct (is_http_error r) eqn:Herr; simpl; rewrite ?Herr; simpl;
    try reflexivity.
  destruct (Py.truthy _); simpl; try reflexivity.
  destruct (log_error_hint _); reflexivity.
Qed.

(** Rules that keep what the run has established so far. *)
Lemma inv_eval_bind {A B} I (r : res A) (f : A -> M B) :
  (forall a, r = Ok a -> invariant I (f a)) -> invariant I (bind (eval r) f).
Proof.
  intros Hf s Hs. simpl. destruct r as [a | e]; simpl; [| exact Hs].
  apply (Hf a eq_refl), Hs.
Qed.

Lemma inv_connect_bind {B} w usr pwd I command noauth basic_auth (f : json -> M B) :
  transport_blind I ->
  (forall n q doc, fetched (w n q) = Ok doc -> invariant I (f doc)) ->
  invariant I (bind (connect_server w usr pwd command noauth basic_auth) f).
Proof.
  intros (Hcode & Hsess & Hex) Hf s Hs. simpl. rewrite connect_server_eq.
  assert (Hafter : forall via q o, I (after_fetch via q o s)).
  { intros via q o. unfold after_fetch. auto. }
  destruct (fetched _) as [doc | e] eqn:Hdoc; simpl; [| apply Hafter].
  apply (Hf _ _ doc Hdoc), Hafter.
Qed.

Lemma get_chassis_urls_served w usr pwd I :
  transport_blind I ->
  (forall n q doc k v s, fetched (w n q) = Ok doc -> k ∈ chassis_keys ->
     link_target doc k = Ok v -> I s -> I (assign_url k v s)) ->
  invariant I (get_chassis_urls w usr pwd).
Proof.
  intros Hblind Hassign. unfold get_chassis_urls.
  apply inv_call, inv_bind; [apply inv_get_url |]. intros command.
  apply inv_connect_bind; [exact Hblind |]. intros n q doc Hdoc.
  destruct (negb (Py.truthy doc)); [apply inv_return |].
  apply inv_bind; [| intros _; apply inv_return].
  apply inv_for_each. intros url Hurl. unfold set_chassis_url.
  apply inv_bind; [apply inv_eval |]. intros [|]; [| apply inv_ret].
  apply inv_eval_bind. intros v Hv. apply inv_modify. intros s.
  apply (Hassign n q doc); assumption.
Qed.

Lemma fetch_server_info_invariant w usr pwd I :
  transport_blind I -> (forall v s, I s -> I (set__systems_url v s)) ->
  invariant I (fetch_server_info w usr pwd).
Proof.
  intros Hblind Hsys. unfold fetch_server_info.
  repeat first
    [ apply connect_server_invariant; exact Hblind
    | apply inv_modify; intros ?; solve [auto]
    | inv_step ].
Qed.

Lemma extract_labels_invariant host I info :
  (forall v s, link_of info "EthernetInterfaces" = Ok v -> I s ->
     I (assign_url "EthernetInterfaces" v s)) ->
  (forall v s, I s -> I (set_manufacturer v s)) ->
  (forall v s, I s -> I (set_model v s)) ->
  (forall v s, I s -> I (set_serial v s)) ->
  (forall v s, I s -> I (set_powerstate v s)) ->
  (forall v s, I s -> I (set_labels v s)) ->
  invariant I (extract_labels host info).
Proof.
  intros Hei Hman Hmod Hser Hpow Hlab. unfold extract_labels.
  apply inv_eval_bind. intros v Hv.
  apply inv_bind; [apply inv_modify; intros s; apply Hei, Hv |]. intros _.
  repeat first
    [ apply inv_modify; intros ?; solve [auto]
    | inv_step ].
Qed.

Lemma store_health_invariant I info :
  (forall v s, I s -> I (set_server_health v s)) ->
  (forall v s, I s -> I (set_health_summary_metrics v s)) ->
  invariant I (store_health info).
Proof.
  intros Hhealth Hsamples. unfold store_health, add_sample.
  repeat first
    [ apply inv_modify; intros ?; solve [auto]
    | inv_step ].
Qed.

Lemma direct_loop_invariant I info keys :
  (forall k v s, k ∈ keys -> link_of info k = Ok v -> I s -> I (assign_url k v s)) ->
  invariant I
    (for_each keys (fun key =>
       bind (eval (link_of info key)) (fun v => modify (assign_url key v)))).
Proof.
  intros Hassign. apply inv_for_each. intros key Hkey.
  apply inv_eval_bind. intros v Hv. apply inv_modify. intros s.
  apply Hassign; assumption.
Qed.

Lemma set_first_link_invariant I info name :
  (forall ref v s, first_ref info name ref ->
     (if Py.isinstance_dict ref then Py.item ref "@odata.id" else Ok ref) = Ok v ->
     I s -> I (assign_url name v s)) ->
  invariant I (set_first_link info name).
Proof.
  intros Hassign. unfold set_first_link.
  apply inv_eval_bind. intros refs Hrefs.
  destruct (Py.truthy refs) eqn:Htruthy; [| apply inv_ret].
  apply inv_eval_bind. intros ref Href.
  apply inv_eval_bind. intros v Hv. apply inv_modify. intros s.
  apply (Hassign ref); [exists refs; auto | exact Hv].
Qed.

Lemma reset_first_link_invariant I info name :
  (forall ref v s, first_ref info name ref ->
     (Py.isinstance_dict ref = true /\ Py.get ref "@odata.id" (JStr "") = Ok v) \/
     (Py.isinstance_str ref = true /\ v = ref) ->
     I s -> I (assign_url name v s)) ->
  invariant I (reset_first_link info name).
Proof.
  intros Hassign. unfold reset_first_link.
  apply inv_eval_bind. intros refs Hrefs.
  destruct (Py.truthy refs) eqn:Htruthy; [| apply inv_ret].
  apply inv_eval_bind. intros ref Href.
  assert (Hfirst : first_ref info name ref) by (exists refs; auto).
  destruct (Py.isinstance_dict ref) eqn:Hdict.
  - apply inv_eval_bind. intros v Hv. apply inv_modify. intros s.
    apply (Hassign ref); auto.
  - destruct (Py.isinstance_str ref) eqn:Hstr; [| apply inv_ret].
    apply inv_modify. intros s. apply (Hassign ref); auto.
Qed.

Lemma set_component_urls_invariant w usr pwd I info :
  transport_blind I ->
  (forall k v s, k ∈ discovered_keys -> I s -> I (assign_url k v s)) ->
  invariant I (set_component_urls w usr pwd info).
Proof.
  intros Hblind Hassign. unfold set_component_urls.
  apply inv_bind; [| intros _; apply inv_bind; [| intros _; apply inv_bind;
    [| intros _; apply inv_bind; [| intros _; apply inv_ret]]]].
  - apply direct_loop_invariant. intros k v s Hk _. apply Hassign. member.
  - apply set_first_link_invariant. intros ref v s _ _. apply Hassign. member.
  - apply set_first_link_invariant. intros ref v s _ _. apply Hassign. member.
  - apply get_chassis_urls_invariant; [exact Hblind |].
    intros k v s Hk. apply Hassign. member.
Qed.

Lemma extract_component_paths_invariant w usr pwd I info :
  transport_blind I ->
  (forall k v s, k ∈ discovered_keys -> I s -> I (assign_url k v s)) ->
  invariant I (extract_component_paths w usr pwd info).
Proof.
  intros Hblind Hassign. unfold extract_component_paths.
  apply inv_bind; [| intros _; apply inv_bind; [| intros _; apply inv_bind;
    [| intros _; apply inv_bind; [| intros _; apply inv_ret]]]].
  - apply direct_loop_invariant. intros k v s Hk _. apply Hassign. member.
  - apply reset_first_link_invariant. intros ref v s _ _. apply Hassign. member.
  - apply reset_first_link_invariant. intros ref v s _ _. apply Hassign. member.
  - apply get_chassis_urls_invariant; [exact Hblind |].
    intros k v s Hk. apply Hassign. member.
Qed.

Lemma get_base_labels_invariant w host usr pwd I :
  discovery_safe I -> invariant I (get_base_labels w host usr pwd).
Proof.
  intros (Hblind & Hsys & Hman & Hmod & Hser & Hpow & Hlab & Hhealth & Hsamples & Hassign).
  unfold get_base_labels, discover_system.
  apply inv_call, inv_bind.
  - apply inv_bind; [apply fetch_server_info_invariant; assumption |]. intros info.
    apply inv_bind; [| intros _; apply inv_bind; [| intros _; apply inv_bind;
      [| intros _; apply inv_ret]]].
    + apply extract_labels_invariant; try assumption.
      intros v s _. apply Hassign. member.
    + apply store_health_invariant; assumption.
    + apply set_component_urls_invariant; assumption.
  - intros info. apply extract_component_paths_invariant; assumption.
Qed.

(** ** The chassis step *)

Lemma chassis_frame_refl s : chassis_frame s s.
Proof. unfold chassis_frame. auto 10. Qed.

Lemma chassis_frame_blind s0 : transport_blind (chassis_frame s0).
Proof. unfold transport_blind, chassis_frame. simpl. auto. Qed.

Lemma chassis_frame_assign s0 k v s :
  k ∈ chassis_keys -> chassis_frame s0 s -> chassis_frame s0 (assign_url k v s).
Proof.
  intros Hk (Hurls & Hrest). split; [| exact Hrest].
  intros k' Hk'. simpl. rewrite lookup_insert_ne; [apply Hurls, Hk' |].
  intros ->. contradiction.
Qed.

(** C10: a call of [get_chassis_urls], whatever the server answers and
    however the call ends, changes no entry of the resource map other than
    PowerSubsystem, Power, ThermalSubsystem and Thermal, and leaves the
    manufacturer, model, serial, the labels, the health code and the up
    flag unchanged. *)
Theorem get_chassis_urls_frame w usr pwd s :
  chassis_frame s (get_chassis_urls w usr pwd s).2.
Proof.
  apply (get_chassis_urls_invariant w usr pwd (chassis_frame s)).
  - apply chassis_frame_blind.
  - intros k v s1 Hk. apply chassis_frame_assign, Hk.
  - apply chassis_frame_refl.
Qed.

Lemma connect_server_urls w usr pwd command noauth basic_auth s :
  urls (connect_server w usr pwd command noauth basic_auth s).2 = urls s.
Proof.
  apply (connect_server_invariant w usr pwd (fun x => urls x = urls s)); [| reflexivity].
  unfold transport_blind. simpl. auto.
Qed.







(** [connect_server] sends exactly one request. *)
Lemma connect_server_exchanges w usr pwd command noauth basic_auth s :
  exchanges (connect_server w usr pwd command noauth basic_auth s).2
  = (exchanges s ++
      [(GET command (prepare_session usr pwd noauth basic_auth s),
        w (List.length (exchanges s))
          (GET command (prepare_session usr pwd noauth basic_auth s)))])%list.
Proof.
  unfold connect_server, send. simpl.
  change (prepare_session usr pwd noauth basic_auth (set__last_http_code 200 s))
    with (prepare_session usr pwd noauth basic_auth s).
  destruct (w _ _) as [r | []]; simpl; try reflexivity.
  unfold ok. destruct (is_http_error r) eqn:Herr; simpl; rewrite ?Herr; simpl;
    try reflexivity.
  destruct (Py.truthy _); simpl; try reflexivity.
  destruct (log_error_hint _); reflexivity.
Qed.

Lemma chassis_loop_exchanges chassis_data keys s :
  exchanges (for_each keys (set_chassis_url chassis_data) s).2 = exchanges s.
Proof.
  apply (inv_for_each (fun x => exchanges x = exchanges s)); [| reflexivity].
  intros url _. unfold set_chassis_url.
  repeat first [ inv_step | solve [auto] ].
Qed.

(** C7, counterexample: with an empty Chassis URL the method still sends
    a request (for the bare root of the target), and a JSON answer to it
    is used like a chassis document. *)
Lemma chassis_step_not_noop :
  urls (init "bmc") !! "Chassis" = Some (JStr "") /\
  ~ chassis_step_is_noop root_answers_json "admin" "secret" (init "bmc").
Proof.
  split; [reflexivity |].
  intros (Hsent & _). vm_compute in Hsent. discriminate Hsent.
Qed.

(** C7, amended: with an empty Chassis URL [get_chassis_urls] sends one
    GET for the empty path; when that fetch yields nothing usable (an
    error, an undecodable or an empty body) the method returns [None]
    without raising and the resource map is unchanged. *)
Theorem get_chassis_urls_empty_url w usr pwd s :
  urls s !! "Chassis" = Some (JStr "") ->
  exchanges (get_chassis_urls w usr pwd s).2
  = (exchanges s ++
      [(GET (JStr "") (prepare_session usr pwd false false s),
        w (List.length (exchanges s))
          (GET (JStr "") (prepare_session usr pwd false false s)))])%list /\
  forall doc s1,
    connect_server w usr pwd (JStr "") false false s = (Val doc, s1) ->
    Py.truthy doc = false ->
    get_chassis_urls w usr pwd s = (Val JNull, s1) /\ urls s1 = urls s.
Proof.
  intros Hempty. split.
  - pose proof (connect_server_exchanges w usr pwd (JStr "") false false s) as Hone.
    unfold get_chassis_urls, get_url. simpl. rewrite Hempty.
    destruct (connect_server w usr pwd (JStr "") false false s) as [[doc | v | e] s1];
      simpl in *; try exact Hone.
    destruct (Py.truthy doc); simpl; [| exact Hone].
    pose proof (chassis_loop_exchanges doc chassis_keys s1) as Hloop.
    destruct (for_each chassis_keys (set_chassis_url doc) s1) as [[[] | v | e] s2];
      simpl in *; congruence.
  - intros doc s1 Hconn Hfalsy. split.
    + unfold get_chassis_urls, get_url. simpl. rewrite Hempty, Hconn, Hfalsy.
      reflexivity.
    + pose proof (connect_server_urls w usr pwd (JStr "") false false s) as H.
      rewrite Hconn in H. exact H.
Qed.

Lemma get_chassis_urls_empty_url_witness :
  exchanges (get_chassis_urls (fun _ _ => Failed ReadTimeout) "admin" "secret" (init "bmc")).2
  = [(GET (JStr "") {| auth := None; x_auth_token := Some (JStr "") |}, Failed ReadTimeout)].
Proof.
  apply (get_chassis_urls_empty_url (fun _ _ => Failed ReadTimeout) "admin" "secret" (init "bmc")).
  reflexivity.
Defined.


(** ** Symbolic execution of a method run *)

(** [H : m s = (r, s')] is unfolded statement by statement; every test
    and every expression that may raise splits the run. *)
Ltac exec_in H Hex :=
  repeat (simpl in H; rewrite ?Hex in H; simpl in H;
    match type of H with
    | context [connect_server _ _ _ _ _ _ _] => rewrite connect_server_eq in H
    | context [for_each (_ :: _) _] => rewrite for_each_cons in H
    | context [for_each [] _] => rewrite for_each_nil in H
    | context [match ?x with _ => _ end] =>
        lazymatch x with
        | context [match _ with _ => _ end] => fail
        | _ => destruct x eqn:?
        end
    end).

Ltac exec_run H :=
  repeat (simpl in H;
    match type of H with
    | context [connect_server _ _ _ _ _ _ _] => rewrite connect_server_eq in H
    | context [for_each (_ :: _) _] => rewrite for_each_cons in H
    | context [for_each [] _] => rewrite for_each_nil in H
    | context [match ?x with _ => _ end] =>
        lazymatch x with
        | context [match _ with _ => _ end] => fail
        | _ => destruct x eqn:?
        end
    end).

Ltac bool_facts :=
  repeat match goal with
         | H : negb _ = true |- _ => apply negb_true_iff in H
         | H : negb _ = false |- _ => apply negb_false_iff in H
         | H : (_ =? _) = true |- _ => apply Z.eqb_eq in H
         | H : (_ =? _) = false |- _ => apply Z.eqb_neq in H
         | H : _ && _ = true |- _ => apply andb_true_iff in H as [? ?]
         | H : _ || _ = false |- _ => apply orb_false_iff in H as [? ?]
         end.

Ltac finish :=
  bool_facts; repeat split; intros;
  repeat match goal with
         | H : _ /\ _ |- _ => destruct H
         | H : exists _, _ |- _ => destruct H
         end;
  try congruence; try contradiction; eauto.

(** ** Session negotiation *)

Lemma get_session_basic w usr pwd s r s' :
  exchanges s = [] -> _basic_auth s = false ->
  get_session w usr pwd s = (r, s') ->
  (_basic_auth s' = true <-> basic_auth_cases (exchanges s')) /\
  (_basic_auth s' = true -> r = Val JNull).
Proof.
  intros Hex Hbasic Hrun.
  unfold get_session, locate_sessions, post_session, accept_session, get_url, send, ok
    in Hrun.
  exec_in Hrun Hex.
  all: injection Hrun as <- <-; simpl; rewrite ?Hex; simpl.
  all: solve [finish].
Qed.



Lemma fetched_truthy o doc :
  fetched o = Ok doc -> Py.truthy doc = true ->
  exists r, o = Responded r /\ body r = Some doc.
Proof.
  destruct o as [r | e]; simpl.
  - destruct (ok r).
    + destruct (body r) as [b |] eqn:Hb; simpl; intros H Ht; simplify_eq; eauto.
    + destruct (Py.truthy _); [destruct (log_error_hint _) |]; simpl;
        intros H Ht; simplify_eq.
  - intros H Ht. simplify_eq.
Qed.

Lemma get_session_up w usr pwd s r s' :
  exchanges s = [] -> _redfish_up s = 0 -> _basic_auth s = false ->
  get_session w usr pwd s = (r, s') ->
  _redfish_up s' = 0 \/
  (_redfish_up s' = 1 /\ Py.truthy (_auth_token s') = true /\
   Py.truthy (_session_url s') = true /\ _basic_auth s' = false /\
   exists doc v, root_document s' = Some doc /\
                 link_target doc "Systems" = Ok v /\
                 urls s' !! "Systems" = Some v).
Proof.
  intros Hex Hup Hbasic Hrun.
  unfold get_session, locate_sessions, post_session, accept_session, get_url, send, ok
    in Hrun.
  exec_in Hrun Hex.
  all: injection Hrun as <- <-; simpl; rewrite ?Hex; simpl.
  all: try solve [left; reflexivity | left; assumption].
  all: bool_facts; try congruence.
  all: right; repeat (split; [solve [auto] |]).
  all: match goal with
       | Hf : fetched ?o = Ok ?doc, Ht : Py.truthy ?doc = true |- _ =>
           destruct (fetched_truthy o doc Hf Ht) as (root & Ho & Hbody)
       end.
  all: unfold root_document; simpl; rewrite Hex; simpl; rewrite Ho, Hbody.
  all: eexists _, _; split; [reflexivity |]; split; [eassumption |].
  all: rewrite lookup_insert_ne by discriminate; apply lookup_insert_eq.
Qed.

Lemma session_frame_refl s : session_frame s s.
Proof.
  unfold session_frame. repeat split; try reflexivity.
  exists []. symmetry. apply app_nil_r.
Qed.

Lemma session_frame_safe s0 : discovery_safe (session_frame s0).
Proof.
  unfold discovery_safe, transport_blind, session_frame. simpl.
  repeat split; intros; try tauto.
  - destruct H as (? & ? & ? & ? & ? & later & Hl).
    repeat split; try assumption.
    exists (later ++ [(q, o)])%list. rewrite Hl. symmetry. apply app_assoc.
  - destruct H0 as (? & ? & ? & ? & Hsys & Hl).
    repeat split; try assumption.
    rewrite lookup_insert_ne; [exact Hsys |]. intros ->.
    unfold discovered_keys, direct_keys, chassis_keys in H. simpl in H.
    rewrite !elem_of_cons, elem_of_nil in H. intuition discriminate.
Qed.

Lemma collect_session_frame w host usr pwd s :
  session_frame s (collect w host usr pwd s).2.
Proof.
  assert (H : invariant (session_frame s) (collect w host usr pwd)).
  { unfold collect. apply inv_call, inv_bind; [apply inv_gets |]. intros up.
    destruct (up =? 0); [apply inv_return |].
    apply inv_bind; [| intros _; apply inv_ret].
    apply get_base_labels_invariant, session_frame_safe. }
  apply H, session_frame_refl.
Qed.

Lemma root_document_later s s' doc later :
  root_document s = Some doc -> exchanges s' = (exchanges s ++ later)%list ->
  root_document s' = Some doc.
Proof.
  unfold root_document. intros Hdoc ->.
  destruct (exchanges s) as [| [q o] rest]; [discriminate | exact Hdoc].
Qed.

(** C1, counterexample: the service root advertises a Systems link with
    an empty URL; the session is created and the up flag is 1 while the
    Systems entry of the resource map is the empty string. *)
Lemma empty_systems_url_with_up :
  ~ stated_up_invariant (get_session empty_systems_link "admin" "secret" (init "bmc")).2.
Proof.
  intros H. destruct H as [_ (v & Hv & u & -> & Hne)]; [reflexivity |].
  vm_compute in Hv. injection Hv as <-. apply Hne. reflexivity.
Qed.

(** C1, amended: after [get_session], and after the whole scrape of a
    fresh collector, an up flag of 1 implies that a non-empty auth token is
    held (the session is in token-auth mode, so not unauthenticated) and
    that the service root carried a Systems link whose [@odata.id] is what
    the resource map holds for Systems; that URL is non-empty whenever the
    server advertises a non-empty one. *)
Theorem up_flag_invariant w host usr pwd s' :
  s' = (get_session w usr pwd (init host)).2 \/
  s' = (scrape w host usr pwd (init host)).2 ->
  _redfish_up s' = 1 ->
  Py.truthy (_auth_token s') = true /\
  session_mode s' = TokenAuth /\
  exists doc v, root_document s' = Some doc /\
                link_target doc "Systems" = Ok v /\
                urls s' !! "Systems" = Some v.
Proof.
  assert (Hfacts : forall s, session_frame (get_session w usr pwd (init host)).2 s ->
            _redfish_up s = 1 ->
            Py.truthy (_auth_token s) = true /\
            session_mode s = TokenAuth /\
            exists doc v, root_document s = Some doc /\
                          link_target doc "Systems" = Ok v /\
                          urls s !! "Systems" = Some v).
  { intros s (Hup & Htok & _ & Hbasic & Hsys & later & Hlater) Hone.
    destruct (get_session w usr pwd (init host)) as [r s1] eqn:Hrun. simpl in *.
    destruct (get_session_up w usr pwd (init host) r s1 eq_refl eq_refl eq_refl Hrun)
      as [Hzero | (_ & Htoken & _ & Hb & doc & v & Hdoc & Hlink & Hv)]; [lia |].
    split; [rewrite Htok; exact Htoken |]. split.
    - unfold session_mode. rewrite Hbasic, Hb, Htok, Htoken. reflexivity.
    - exists doc, v. split; [exact (root_document_later s1 s doc later Hdoc Hlater) |].
      split; [exact Hlink |]. rewrite Hsys. exact Hv. }
  intros [-> | ->]; [apply Hfacts, session_frame_refl |].
  apply Hfacts. unfold scrape. simpl.
  destruct (get_session w usr pwd (init host)) as [[v | v | e] s1]; simpl;
    try apply session_frame_refl.
  pose proof (collect_session_frame w host usr pwd s1) as Hc.
  destruct (collect w host usr pwd s1) as [[v' | v' | e'] s2]; exact Hc.
Qed.

Lemma up_flag_invariant_witness :
  Py.truthy (_auth_token (scrape grants_session "bmc" "admin" "secret" (init "bmc")).2) = true /\
  session_mode (scrape grants_session "bmc" "admin" "secret" (init "bmc")).2 = TokenAuth /\
  exists doc v,
    root_document (scrape grants_session "bmc" "admin" "secret" (init "bmc")).2 = Some doc /\
    link_target doc "Systems" = Ok v /\
    urls (scrape grants_session "bmc" "admin" "secret" (init "bmc")).2 !! "Systems" = Some v.
Proof.
  apply (up_flag_invariant grants_session "bmc" "admin" "secret").
  - right. reflexivity.
  - reflexivity.
Defined.

Lemma get_session_accept w usr pwd s res s' earlier lnk u p via r :
  exchanges s = [] -> _redfish_up s = 0 -> _basic_auth s = false ->
  get_session w usr pwd s = (res, s') ->
  exchanges s' = (earlier ++ [(POST lnk u p via, Responded r)])%list ->
  status_code r = 200 \/ status_code r = 201 ->
  let token := header "X-Auth-Token" (headers r) in
  let location := header "Location" (headers r) in
  _auth_token s' = token /\
  (Py.truthy token = false ->
     _redfish_up s' = 0 /\ _session_url s' = _session_url s /\ res = Val JNull) /\
  (Py.truthy token = true -> Py.truthy location = true ->
     _session_url s' = location /\ _redfish_up s' = 1 /\ res = Val JNull) /\
  (Py.truthy token = true -> Py.truthy location = false ->
     forall b u, body r = Some (JDict b) ->
       Py.get (JDict b) "@odata.id" JNull = Ok u -> Py.truthy u = true ->
       _session_url s' = u /\ _redfish_up s' = 1 /\ res = Val JNull) /\
  (Py.truthy token = true -> Py.truthy location = false ->
     (forall b u, body r = Some (JDict b) ->
        Py.get (JDict b) "@odata.id" JNull = Ok u -> Py.truthy u = false) ->
     _redfish_up s' = 0 /\ _session_url s' = _session_url s) /\
  (_redfish_up s' = 1 ->
     Py.truthy (_auth_token s') = true /\ Py.truthy (_session_url s') = true /\
     session_mode s' = TokenAuth).
Proof.
  intros Hex Hup Hbasic Hrun Hlast Hstatus.
  unfold get_session, locate_sessions, post_session, accept_session, get_url, send, ok
    in Hrun.
  exec_in Hrun Hex.
  all: injection Hrun as <- <-; simpl in *; rewrite ?Hex in Hlast; simpl in Hlast.
  all: apply (f_equal last) in Hlast; rewrite last_snoc in Hlast; simpl in Hlast.
  all: try discriminate Hlast.
  all: injection Hlast as <- <- <- <- <-.
  all: bool_facts; try congruence.
  all: try (exfalso; unfold is_http_error in *; destruct Hstatus as [Hst | Hst];
            rewrite Hst in *; simpl in *; congruence).
  all: repeat match goal with
              | H : Py.get ?j _ _ = Ok _ |- _ =>
                  destruct j; simpl in H; try discriminate H; injection H as <-
              end.
  all: unfold session_mode; simpl; rewrite ?Hbasic, ?Hup.
  all: repeat split; intros;
       simplify_eq;
       repeat match goal with
              | H : forall b u, body ?r = Some (JDict b) -> _,
                H' : body ?r = Some (JDict ?d) |- _ => specialize (H d _ H' eq_refl)
              | H : Py.truthy ?x = true |- context [Py.truthy ?x] => rewrite H
              end;
       simpl in *; simplify_eq; try congruence; try lia.
Qed.

(** C4: for every 200/201 answer to the session POST of a fresh
    collector, the token is the [X-Auth-Token] header; without a usable
    token the up flag is 0 and nothing more is done; the session URL is the
    [Location] header or, failing that, the [@odata.id] member of the JSON
    body; when neither yields a URL the up flag is 0 as well (a body that
    is not an object ends the method with the flag still at 0); and the up
    flag is 1 only with both a token and a session URL, in token-auth
    mode. *)
Theorem session_accepted w host usr pwd earlier lnk u p via r :
  exchanges (get_session w usr pwd (init host)).2
    = (earlier ++ [(POST lnk u p via, Responded r)])%list ->
  status_code r = 200 \/ status_code r = 201 ->
  let token := header "X-Auth-Token" (headers r) in
  let location := header "Location" (headers r) in
  let res := (get_session w usr pwd (init host)).1 in
  let s' := (get_session w usr pwd (init host)).2 in
  _auth_token s' = token /\
  (Py.truthy token = false ->
     _redfish_up s' = 0 /\ _session_url s' = _session_url (init host) /\ res = Val JNull) /\
  (Py.truthy token = true -> Py.truthy location = true ->
     _session_url s' = location /\ _redfish_up s' = 1 /\ res = Val JNull) /\
  (Py.truthy token = true -> Py.truthy location = false ->
     forall b u, body r = Some (JDict b) ->
       Py.get (JDict b) "@odata.id" JNull = Ok u -> Py.truthy u = true ->
       _session_url s' = u /\ _redfish_up s' = 1 /\ res = Val JNull) /\
  (Py.truthy token = true -> Py.truthy location = false ->
     (forall b u, body r = Some (JDict b) ->
        Py.get (JDict b) "@odata.id" JNull = Ok u -> Py.truthy u = false) ->
     _redfish_up s' = 0 /\ _session_url s' = _session_url (init host)) /\
  (_redfish_up s' = 1 ->
     Py.truthy (_auth_token s') = true /\ Py.truthy (_session_url s') = true /\
     session_mode s' = TokenAuth).
Proof.
  intros Hlast Hstatus.
  destruct (get_session w usr pwd (init host)) as [res s'] eqn:Hrun.
  exact (get_session_accept w usr pwd (init host) res s' earlier lnk u p via r
           eq_refl eq_refl eq_refl Hrun Hlast Hstatus).
Qed.

Lemma session_accepted_witness :
  _auth_token (get_session grants_session "admin" "secret" (init "bmc")).2
  = JStr "0123abcd".
Proof.
  exact (proj1 (session_accepted grants_session "bmc" "admin" "secret"
                  (take 2 (exchanges (get_session grants_session "admin" "secret"
                                        (init "bmc")).2))
                  (JStr "/redfish/v1/SessionService/Sessions") "admin" "secret"
                  {| auth := None; x_auth_token := None |}
                  session_created_response eq_refl (or_intror eq_refl))).
Defined.

(** C2: inputs on which the methods raise instead of returning.  When
    the first session POST fails on a connection error and the retry is
    answered with 503, [get_session] raises [HTTPError]: the handler of
    the retry (lines 143-154) catches connection errors only, unlike the
    handlers of the first attempt.  A SessionService document without a
    [Sessions] member makes [get_session] raise [KeyError] (line 126); an
    error answer whose body has no [error] member makes [connect_server]
    raise [KeyError] in its debug output (line 291); a system resource
    whose [Status.Health] is [null] makes [get_base_labels], and with it
    the scrape, raise [AttributeError] (line 368). *)
Theorem unhandled_exceptions :
  (get_session retry_refused "admin" "secret" (init "bmc")).1 = Exc HTTPError /\
  (get_session no_sessions_member "admin" "secret" (init "bmc")).1 = Exc KeyError /\
  (connect_server unauthorized_plain "admin" "secret" (JStr "/redfish/v1") true false
     (init "bmc")).1 = Exc KeyError /\
  (scrape health_is_null "bmc" "admin" "secret" (init "bmc")).1 = Exc AttributeError.
Proof. repeat split; reflexivity. Qed.

(** ** Health normalisation *)








(** ** Identity fields *)

Lemma snd_call {A} (m : M A) s : (call m s).2 = (m s).2.
Proof. simpl. destruct (m s) as [[a | v | e] s1]; reflexivity. Qed.


Lemma bind_state {A B} (I : collector -> Prop) (m : M A) (f : A -> M B) s :
  I (m s).2 -> (forall a, invariant I (f a)) -> I (bind m f s).2.
Proof.
  intros Hm Hf. simpl. destruct (m s) as [[a | v | e] s1]; simpl in *; try exact Hm.
  apply Hf, Hm.
Qed.







(** ** The resource map over one discovery pass *)

Lemma never_cleared_refl watched m : never_cleared watched m m.
Proof. intros k _ H. exact H. Qed.

Lemma never_cleared_trans watched a b c :
  never_cleared watched a b -> never_cleared watched b c -> never_cleared watched a c.
Proof. intros Hab Hbc k Hk H. apply Hab, Hbc; assumption. Qed.

Lemma chain_snoc watched l : forall m f f',
  chain watched m l f -> never_cleared watched f f' ->
  chain watched m (l ++ [f']) f'.
Proof.
  induction l as [| m' l IH]; intros m f f' Hc Hn; simpl in *.
  - subst. split; [exact Hn | reflexivity].
  - destruct Hc as [Hm Hc]. split; [exact Hm |]. apply (IH m' f f'); assumption.
Qed.

Lemma chain_pairs watched l : forall m f i j a b,
  chain watched m l f -> (i <= j)%nat ->
  (m :: l) !! i = Some a -> (m :: l) !! j = Some b ->
  never_cleared watched a b.
Proof.
  induction l as [| m' l IH]; intros m f i j a b Hc Hij Ha Hb.
  - destruct i, j; simpl in *; simplify_eq; try apply never_cleared_refl; lia.
  - destruct Hc as [Hm Hc]. destruct i as [| i], j as [| j]; simpl in *; try lia.
    + simplify_eq. apply never_cleared_refl.
    + injection Ha as <-. apply (never_cleared_trans _ _ m'); [exact Hm |].
      apply (IH m' f 0%nat j m' b); simpl; auto with lia.
    + apply (IH m' f i j a b); auto with lia.
Qed.

Lemma tracked_append_only watched s x :
  tracked watched s x -> append_only_on watched (pass_points s x).
Proof.
  intros (suffix & Htrace & Hchain) i j m m' k v Hk Hij Hm Hm' Hv Hne Hempty.
  unfold pass_points in Hm, Hm'. rewrite Htrace, drop_app_length in Hm, Hm'.
  pose proof (chain_pairs watched suffix (urls s) (urls x) i j m m' Hchain Hij Hm Hm')
    as Hnc.
  specialize (Hnc k Hk Hempty). congruence.
Qed.

Lemma tracked_refl watched s : tracked watched s s.
Proof. exists []. split; [symmetry; apply app_nil_r | reflexivity]. Qed.

Lemma tracked_same watched s x x' :
  urls x' = urls x -> urls_trace x' = urls_trace x ->
  tracked watched s x -> tracked watched s x'.
Proof. intros Hu Ht (suffix & H1 & H2). exists suffix. rewrite Hu, Ht. auto. Qed.

Lemma tracked_assign watched s k v x :
  (watched k -> v = JStr "" -> urls x !! k = Some (JStr "")) ->
  tracked watched s x -> tracked watched s (assign_url k v x).
Proof.
  intros Hsafe (suffix & Htrace & Hchain).
  exists (suffix ++ [<[k:=v]> (urls x)])%list. simpl. split.
  - rewrite Htrace. symmetry. apply app_assoc.
  - apply (chain_snoc _ _ _ (urls x)); [exact Hchain |].
    intros k' Hk' Hempty. destruct (decide (k = k')) as [<- | Hne].
    + rewrite lookup_insert_eq in Hempty. injection Hempty as ->. auto.
    + rewrite lookup_insert_ne in Hempty by exact Hne. exact Hempty.
Qed.

(** Rules for [triple]. *)
Lemma triple_bind {A B} P (m : M A) Q X (f : A -> M B) R :
  triple P m Q X -> (forall a, triple (Q a) (f a) R X) -> triple P (bind m f) R X.
Proof.
  intros Hm Hf s Hs. specialize (Hm s Hs). simpl.
  destruct (m s) as [[a | v | e] s1]; simpl in *; try exact Hm.
  apply (Hf a s1 Hm).
Qed.

Lemma triple_ret {A} (P : collector -> Prop) (a : A) (Q : A -> collector -> Prop) X :
  (forall s, P s -> Q a s) -> triple P (ret a) Q X.
Proof. intros H s Hs. simpl. apply H, Hs. Qed.

Lemma triple_inv {A} I (m : M A) X :
  invariant I m -> (forall s, I s -> X s) -> triple I m (fun _ => I) X.
Proof.
  intros Hm HX s Hs. specialize (Hm s Hs).
  destruct (m s) as [[a | v | e] s1]; simpl in *; auto.
Qed.

Lemma triple_weaken {A} (P P' : collector -> Prop) (m : M A)
    (Q Q' : A -> collector -> Prop) X :
  (forall s, P' s -> P s) -> (forall a s, Q a s -> Q' a s) ->
  triple P m Q X -> triple P' m Q' X.
Proof.
  intros HP HQ Hm s Hs. specialize (Hm s (HP s Hs)).
  destruct (m s) as [[a | v | e] s1]; simpl in *; auto.
Qed.

Lemma triple_end {A} P (m : M A) (Q : A -> collector -> Prop) X s :
  triple P m Q X -> (forall a x, Q a x -> X x) -> P s -> X (m s).2.
Proof.
  intros Hm HQ Hs. specialize (Hm s Hs).
  destruct (m s) as [[a | v | e] s1]; simpl in *; eauto.
Qed.

Lemma first_ref_unique info name r1 r2 :
  first_ref info name r1 -> first_ref info name r2 -> r1 = r2.
Proof. intros (refs1 & H1 & _ & F1) (refs2 & H2 & _ & F2). congruence. Qed.

Lemma served_chassis_link w n q doc k v :
  serves_no_empty_chassis_link w ->
  fetched (w n q) = Ok doc -> k ∈ chassis_keys -> link_target doc k = Ok v ->
  v <> JStr "".
Proof.
  intros Hw Hdoc Hk Hv.
  destruct doc as [| | | | | d]; try discriminate Hv.
  unfold link_target in Hv. simpl in Hv.
  destruct (Py.assoc k d) as [lnk |] eqn:Hlnk; [| discriminate Hv]. simpl in Hv.
  destruct (w n q) as [r | e] eqn:Hr; simpl in Hdoc; [| discriminate Hdoc].
  assert (Hbody : body r = Some (JDict d)).
  { destruct (ok r).
    - destruct (body r) as [b |]; simpl in Hdoc; congruence.
    - destruct (Py.truthy _); [destruct (log_error_hint _) |]; simpl in Hdoc;
        discriminate Hdoc. }
  intros ->. exact (Hw n q r d k lnk Hr Hbody Hk Hlnk Hv).
Qed.

Lemma discovering_same watched keys s info x x' :
  urls x' = urls x -> urls_trace x' = urls_trace x ->
  discovering watched keys s info x -> discovering watched keys s info x'.
Proof.
  intros Hu Ht (Htr & Hset & Hc & Hm).
  split; [exact (tracked_same _ _ _ _ Hu Ht Htr) |].
  unfold settled, first_link_settled in *. rewrite Hu. auto.
Qed.

Lemma discovering_blind watched keys s info :
  transport_blind (discovering watched keys s info).
Proof.
  unfold transport_blind.
  repeat split; intros; eapply discovering_same; try eassumption; reflexivity.
Qed.

Lemma fresh_discovering watched keys s info x :
  keys ⊆ direct_keys ->
  tracked watched s x -> fresh x -> discovering watched keys s info x.
Proof.
  intros Hsub Htr Hfresh. split; [exact Htr |]. split; [| split].
  - intros k Hk. left. apply Hfresh. apply Hsub in Hk. member.
  - left. apply Hfresh. member.
  - left. apply Hfresh. member.
Qed.

Lemma not_direct_link_name k :
  k ∈ direct_keys -> k <> "Chassis" /\ k <> "ManagedBy".
Proof.
  unfold direct_keys. rewrite !elem_of_cons, elem_of_nil.
  intros H. split; intros ->; intuition discriminate.
Qed.

(** An assignment of the loop over the direct keys. *)
Lemma discovering_direct watched keys s info k v x :
  (forall k, k ∈ direct_keys -> k ∈ keys \/ ~ watched k) ->
  k ∈ direct_keys -> link_of info k = Ok v ->
  discovering watched keys s info x ->
  discovering watched keys s info (assign_url k v x).
Proof.
  intros Hside Hk Hv (Htr & Hset & Hc & Hm).
  destruct (not_direct_link_name k Hk) as [HkC HkM].
  split; [| split; [| split]].
  - apply tracked_assign; [| exact Htr]. intros Hw ->.
    destruct (Hside k Hk) as [Hin | Hnot]; [| contradiction].
    destruct (Hset k Hin) as [He | (v' & Hv' & He)]; [exact He |]. congruence.
  - intros k' Hk'. simpl. destruct (decide (k = k')) as [<- | Hne].
    + right. exists v. split; [exact Hv | apply lookup_insert_eq].
    + rewrite lookup_insert_ne by exact Hne. apply Hset, Hk'.
  - unfold first_link_settled in *. simpl. rewrite lookup_insert_ne by exact HkC. exact Hc.
  - unfold first_link_settled in *. simpl. rewrite lookup_insert_ne by exact HkM. exact Hm.
Qed.

Lemma first_link_settled_assign info name k v x :
  (k = name ->
   v = JStr "" \/
   exists ref, first_ref info name ref /\
     (if Py.isinstance_dict ref then Py.item ref "@odata.id" else Ok ref) = Ok v) ->
  (k <> name -> first_link_settled info name x) ->
  first_link_settled info name (assign_url k v x).
Proof.
  intros Hsame Hother. unfold first_link_settled. simpl.
  destruct (decide (k = name)) as [-> | Hne].
  - rewrite lookup_insert_eq. destruct (Hsame eq_refl) as [-> | (ref & Hf & Hv)].
    + left. reflexivity.
    + right. exists ref, v. auto.
  - rewrite lookup_insert_ne by exact Hne. apply Hother, Hne.
Qed.

(** The value an entry [name] takes when the first reference is
    assigned, empty only if the entry was empty or held that value. *)
Lemma first_link_safe info name ref v x :
  first_link_settled info name x -> first_ref info name ref ->
  (if Py.isinstance_dict ref then Py.item ref "@odata.id" else Ok ref) = Ok v ->
  v = JStr "" -> urls x !! name = Some (JStr "").
Proof.
  intros [He | (ref' & v' & Hf' & Hv' & He)] Hf Hv ->; [exact He |].
  rewrite (first_ref_unique _ _ _ _ Hf' Hf) in Hv'. congruence.
Qed.

Lemma discovering_first_link watched keys s info name ref v x :
  keys ⊆ direct_keys ->
  name = "Chassis" \/ name = "ManagedBy" ->
  first_ref info name ref ->
  (if Py.isinstance_dict ref then Py.item ref "@odata.id" else Ok ref) = Ok v ->
  discovering watched keys s info x ->
  discovering watched keys s info (assign_url name v x).
Proof.
  intros Hsub Hname Hf Hv (Htr & Hset & Hc & Hm).
  assert (Hsettled : first_link_settled info name x) by (destruct Hname as [-> | ->]; assumption).
  split; [| split; [| split]].
  - apply tracked_assign; [| exact Htr]. intros _.
    apply (first_link_safe info name ref v x); assumption.
  - intros k' Hk'. simpl. rewrite lookup_insert_ne; [apply Hset, Hk' |].
    intros <-. apply Hsub, not_direct_link_name in Hk'. destruct Hname; tauto.
  - apply (first_link_settled_assign info "Chassis" name); auto.
    intros ->. right. exists ref. auto.
  - apply (first_link_settled_assign info "ManagedBy" name); auto.
    intros ->. right. exists ref. auto.
Qed.

(** What [reset_first_link] assigns is the value of [set_first_link] or,
    for an object without [@odata.id], the empty string. *)
Lemma reset_value info name ref v :
  first_ref info name ref ->
  (Py.isinstance_dict ref = true /\ Py.get ref "@odata.id" (JStr "") = Ok v) \/
  (Py.isinstance_str ref = true /\ v = ref) ->
  v = JStr "" \/
  (if Py.isinstance_dict ref then Py.item ref "@odata.id" else Ok ref) = Ok v.
Proof.
  intros _ [[Hdict Hget] | [Hstr ->]].
  - destruct ref as [| | | | | d]; try discriminate Hdict. simpl in *.
    destruct (Py.assoc "@odata.id" d); injection Hget as <-; auto.
  - destruct ref; try discriminate Hstr. right. reflexivity.
Qed.

Lemma discovering_reset_link watched keys s info name ref v x :
  keys ⊆ direct_keys ->
  name = "Chassis" \/ name = "ManagedBy" ->
  first_ref info name ref ->
  (Py.isinstance_dict ref = true /\ Py.get ref "@odata.id" (JStr "") = Ok v) \/
  (Py.isinstance_str ref = true /\ v = ref) ->
  discovering watched keys s info x ->
  discovering watched keys s info (assign_url name v x).
Proof.
  intros Hsub Hname Hf Hval HD.
  destruct (reset_value info name ref v Hf Hval) as [-> | Hv];
    [| apply (discovering_first_link watched keys s info name ref v x); assumption].
  destruct HD as (Htr & Hset & Hc & Hm).
  assert (Hsettled : first_link_settled info name x) by (destruct Hname as [-> | ->]; assumption).
  assert (Hwas : urls x !! name = Some (JStr "")).
  { destruct Hsettled as [He | (ref' & v' & Hf' & Hv' & He)]; [exact He |].
    rewrite (first_ref_unique _ _ _ _ Hf' Hf) in Hv'. rewrite He. f_equal.
    destruct Hval as [[Hdict Hget] | [Hstr Heq]].
    - rewrite Hdict in Hv'. destruct ref as [| | | | | d]; try discriminate Hdict.
      simpl in *. destruct (Py.assoc "@odata.id" d); congruence.
    - destruct ref; try discriminate Hstr. simpl in Hv'. congruence. }
  split; [| split; [| split]].
  - apply tracked_assign; [| exact Htr]. auto.
  - intros k' Hk'. simpl. rewrite lookup_insert_ne; [apply Hset, Hk' |].
    intros <-. apply Hsub, not_direct_link_name in Hk'. destruct Hname; tauto.
  - apply (first_link_settled_assign info "Chassis" name); auto.
  - apply (first_link_settled_assign info "ManagedBy" name); auto.
Qed.

(** An assignment of the chassis step, outside the settled keys. *)
Lemma discovering_chassis watched keys s info k v x :
  (forall k, k ∈ chassis_keys -> k ∉ keys) ->
  k ∈ chassis_keys -> v <> JStr "" ->
  discovering watched keys s info x ->
  discovering watched keys s info (assign_url k v x).
Proof.
  intros Hdisjoint Hk Hv (Htr & Hset & Hc & Hm).
  assert (HkC : k <> "Chassis" /\ k <> "ManagedBy").
  { unfold chassis_keys in Hk. rewrite !elem_of_cons, elem_of_nil in Hk.
    split; intros ->; intuition discriminate. }
  split; [| split; [| split]].
  - apply tracked_assign; [| exact Htr]. intros _ ->. contradiction.
  - intros k' Hk'. simpl. rewrite lookup_insert_ne; [apply Hset, Hk' |].
    intros <-. exact (Hdisjoint k Hk Hk').
  - unfold first_link_settled in *. simpl. rewrite lookup_insert_ne by tauto. exact Hc.
  - unfold first_link_settled in *. simpl. rewrite lookup_insert_ne by tauto. exact Hm.
Qed.

Section Pass.

Variable w : remote.
Variables host usr pwd : string.
Variable watched : string -> Prop.
Variable keys : list string.
Variable s : collector.
Variable info : json.

Hypothesis keys_direct : keys ⊆ direct_keys.
Hypothesis keys_cover : forall k, k ∈ direct_keys -> k ∈ keys \/ ~ watched k.
Hypothesis served : serves_no_empty_chassis_link w.

Lemma tracked_blind : transport_blind (tracked watched s).
Proof.
  unfold transport_blind.
  repeat split; intros; eapply tracked_same; try eassumption; reflexivity.
Qed.

Lemma tracked_chassis_step : invariant (tracked watched s) (get_chassis_urls w usr pwd).
Proof.
  apply get_chassis_urls_served; [apply tracked_blind |].
  intros n q doc k v x Hdoc Hk Hv Htr. apply tracked_assign; [| exact Htr].
  intros _ ->. exfalso.
  exact (served_chassis_link w n q doc k (JStr "") served Hdoc Hk Hv eq_refl).
Qed.

Lemma discovering_extract_labels : invariant (discovering watched keys s info) (extract_labels host info).
Proof.
  apply extract_labels_invariant.
  - intros v x Hv. apply discovering_direct; [exact keys_cover | member | exact Hv].
  - intros v x. apply discovering_same; reflexivity.
  - intros v x. apply discovering_same; reflexivity.
  - intros v x. apply discovering_same; reflexivity.
  - intros v x. apply discovering_same; reflexivity.
  - intros v x. apply discovering_same; reflexivity.
Qed.

Lemma discovering_store_health : invariant (discovering watched keys s info) (store_health info).
Proof.
  apply store_health_invariant; intros v x; apply discovering_same; reflexivity.
Qed.

Lemma discovering_direct_loop :
  invariant (discovering watched keys s info)
    (for_each direct_keys (fun key =>
       bind (eval (link_of info key)) (fun v => modify (assign_url key v)))).
Proof.
  apply direct_loop_invariant. intros k v x Hk Hv.
  apply discovering_direct; assumption.
Qed.

Lemma discovering_set_first_link name :
  name = "Chassis" \/ name = "ManagedBy" -> invariant (discovering watched keys s info) (set_first_link info name).
Proof.
  intros Hname. apply set_first_link_invariant. intros ref v x Hf Hv.
  apply (discovering_first_link watched keys s info name ref); assumption.
Qed.

Lemma discovering_reset_first_link name :
  name = "Chassis" \/ name = "ManagedBy" -> invariant (discovering watched keys s info) (reset_first_link info name).
Proof.
  intros Hname. apply reset_first_link_invariant. intros ref v x Hf Hv.
  apply (discovering_reset_link watched keys s info name ref); assumption.
Qed.

Lemma discovering_chassis_step :
  (forall k, k ∈ chassis_keys -> k ∉ keys) ->
  invariant (discovering watched keys s info) (get_chassis_urls w usr pwd).
Proof.
  intros Hdisjoint. apply get_chassis_urls_served; [apply discovering_blind |].
  intros n q doc k v x Hdoc Hk Hv. apply discovering_chassis; [exact Hdisjoint | exact Hk |].
  exact (served_chassis_link w n q doc k v served Hdoc Hk Hv).
Qed.

End Pass.

Lemma fresh_tracked_same watched s x x' :
  urls x' = urls x -> urls_trace x' = urls_trace x ->
  tracked watched s x /\ fresh x -> tracked watched s x' /\ fresh x'.
Proof.
  intros Hu Ht [Htr Hf]. split; [exact (tracked_same _ _ _ _ Hu Ht Htr) |].
  unfold fresh. rewrite Hu. exact Hf.
Qed.

Lemma fetch_keeps_fresh w usr pwd watched s :
  invariant (fun x => tracked watched s x /\ fresh x) (fetch_server_info w usr pwd).
Proof.
  apply fetch_server_info_invariant.
  - unfold transport_blind.
    repeat split; intros; eapply fresh_tracked_same; try eassumption; reflexivity.
  - intros v x. apply fresh_tracked_same; reflexivity.
Qed.

Lemma stable_keys_direct : stable_keys ⊆ direct_keys.
Proof. intros k Hk. member. Qed.

Lemma stable_keys_cover k :
  k ∈ direct_keys -> k ∈ stable_keys \/ ~ not_power_or_thermal k.
Proof.
  unfold direct_keys, stable_keys, not_power_or_thermal.
  rewrite !elem_of_cons, elem_of_nil. intros H.
  repeat (destruct H as [-> | H]; [tauto |]). contradiction.
Qed.

Lemma chassis_keys_not_stable k : k ∈ chassis_keys -> k ∉ stable_keys.
Proof.
  unfold chassis_keys, stable_keys. rewrite !elem_of_cons, !elem_of_nil. intros H.
  repeat (destruct H as [-> | H]; [intuition discriminate |]). contradiction.
Qed.

(** Lines 321-418: no entry is cleared. *)
Lemma discover_system_tracked w host usr pwd s :
  fresh s -> serves_no_empty_chassis_link w ->
  tracked every_key s (discover_system w host usr pwd s).2.
Proof.
  intros Hfresh Hw.
  assert (Hcover : forall k, k ∈ direct_keys -> k ∈ direct_keys \/ ~ every_key k) by auto.
  assert (Hsub : direct_keys ⊆ direct_keys) by (intros k Hk; exact Hk).
  apply (triple_end (fun x => tracked every_key s x /\ fresh x) _
           (fun _ => tracked every_key s));
    [| auto | split; [apply tracked_refl | exact Hfresh]].
  unfold discover_system.
  apply (triple_bind _ _ (fun _ x => tracked every_key s x /\ fresh x));
    [apply triple_inv; [apply fetch_keeps_fresh | intros x H; apply H] |].
  intros info.
  apply (triple_weaken (discovering every_key direct_keys s info) _ _
           (fun _ => tracked every_key s));
    [intros x [Htr Hf]; apply fresh_discovering; auto | auto |].
  assert (HX : forall x, discovering every_key direct_keys s info x ->
                         tracked every_key s x) by (intros x H; apply H).
  apply (triple_bind _ _ (fun _ => discovering every_key direct_keys s info));
    [apply triple_inv; [apply discovering_extract_labels; exact Hcover | exact HX] |].
  intros _.
  apply (triple_bind _ _ (fun _ => discovering every_key direct_keys s info));
    [apply triple_inv; [apply discovering_store_health | exact HX] |].
  intros _.
  apply (triple_bind _ _ (fun _ => tracked every_key s));
    [| intros _; apply triple_ret; auto].
  unfold set_component_urls.
  apply (triple_bind _ _ (fun _ => discovering every_key direct_keys s info));
    [apply triple_inv; [apply discovering_direct_loop; exact Hcover | exact HX] |].
  intros _.
  apply (triple_bind _ _ (fun _ => discovering every_key direct_keys s info));
    [apply triple_inv; [apply discovering_set_first_link; auto | exact HX] |].
  intros _.
  apply (triple_bind _ _ (fun _ => discovering every_key direct_keys s info));
    [apply triple_inv; [apply discovering_set_first_link; auto | exact HX] |].
  intros _.
  apply (triple_bind _ _ (fun _ => tracked every_key s));
    [| intros _; apply triple_ret; auto].
  apply (triple_weaken (tracked every_key s) _ _ (fun _ => tracked every_key s));
    [exact HX | auto |].
  apply triple_inv; [apply tracked_chassis_step; exact Hw | auto].
Qed.

(** The whole method: no entry other than Power and Thermal is cleared. *)
Lemma get_base_labels_tracked w host usr pwd s :
  fresh s -> serves_no_empty_chassis_link w ->
  tracked not_power_or_thermal s (get_base_labels w host usr pwd s).2.
Proof.
  intros Hfresh Hw.
  pose proof stable_keys_direct as Hsub.
  pose proof stable_keys_cover as Hcover.
  pose proof chassis_keys_not_stable as Hdisjoint.
  unfold get_base_labels. rewrite snd_call.
  apply (triple_end (fun x => tracked not_power_or_thermal s x /\ fresh x) _
           (fun _ => tracked not_power_or_thermal s));
    [| auto | split; [apply tracked_refl | exact Hfresh]].
  apply (triple_bind _ _ (fun info => discovering not_power_or_thermal stable_keys s info)).
  - unfold discover_system.
    apply (triple_bind _ _ (fun _ x => tracked not_power_or_thermal s x /\ fresh x));
      [apply triple_inv; [apply fetch_keeps_fresh | intros x H; apply H] |].
    intros info.
    apply (triple_weaken (discovering not_power_or_thermal stable_keys s info) _ _
             (fun a => discovering not_power_or_thermal stable_keys s a));
      [intros x [Htr Hf]; apply fresh_discovering; auto | auto |].
    assert (HX : forall x, discovering not_power_or_thermal stable_keys s info x ->
                           tracked not_power_or_thermal s x) by (intros x H; apply H).
    apply (triple_bind _ _ (fun _ => discovering not_power_or_thermal stable_keys s info));
      [apply triple_inv; [apply discovering_extract_labels; exact Hcover | exact HX] |].
    intros _.
    apply (triple_bind _ _ (fun _ => discovering not_power_or_thermal stable_keys s info));
      [apply triple_inv; [apply discovering_store_health | exact HX] |].
    intros _.
    apply (triple_bind _ _ (fun _ => discovering not_power_or_thermal stable_keys s info));
      [| intros _; apply triple_ret; auto].
    apply triple_inv; [| exact HX].
    unfold set_component_urls.
    apply inv_bind; [apply discovering_direct_loop; exact Hcover |]. intros _.
    apply inv_bind; [apply discovering_set_first_link; auto |]. intros _.
    apply inv_bind; [apply discovering_set_first_link; auto |]. intros _.
    apply inv_bind; [apply discovering_chassis_step; assumption |]. intros _.
    apply inv_ret.
  - intros info.
    apply (triple_weaken (discovering not_power_or_thermal stable_keys s info) _ _
             (fun _ => discovering not_power_or_thermal stable_keys s info));
      [auto | intros a x H; apply H |].
    apply triple_inv; [| intros x H; apply H].
    unfold extract_component_paths.
    apply inv_bind; [apply discovering_direct_loop; exact Hcover |]. intros _.
    apply inv_bind; [apply discovering_reset_first_link; auto |]. intros _.
    apply inv_bind; [apply discovering_reset_first_link; auto |]. intros _.
    apply inv_bind; [apply discovering_chassis_step; assumption |]. intros _.
    apply inv_ret.
Qed.

Lemma discover_system_prefix w host usr pwd s :
  exists later,
    urls_trace (get_base_labels w host usr pwd s).2
    = (urls_trace (discover_system w host usr pwd s).2 ++ later)%list.
Proof.
  set (I := fun x : collector => exists later,
              urls_trace x = (urls_trace (discover_system w host usr pwd s).2 ++ later)%list).
  change (I (get_base_labels w host usr pwd s).2).
  unfold get_base_labels. rewrite snd_call. apply bind_state.
  - exists []. symmetry. apply app_nil_r.
  - intros info. apply extract_component_paths_invariant.
    + unfold transport_blind, I. simpl. auto.
    + intros k v x _ (later & Hl). exists (later ++ [<[k:=v]> (urls x)])%list.
      simpl. rewrite Hl. symmetry. apply app_assoc.
Qed.

Lemma append_only_lookup watched points i j k v :
  append_only_on watched points -> watched k -> (i <= j)%nat ->
  points !! i ≫= lookup k = Some v -> v <> JStr "" ->
  points !! j ≫= lookup k <> Some (JStr "").
Proof.
  intros H Hk Hij Hv Hne Hv'.
  destruct (points !! i) as [m |] eqn:Hm; [| discriminate Hv].
  destruct (points !! j) as [m' |] eqn:Hm'; [| discriminate Hv'].
  simpl in Hv, Hv'. exact (H i j m m' k v Hk Hij Hm Hm' Hv Hne Hv').
Qed.

(** C6, counterexample: the system resource links Power, the chassis
    document then serves an empty Power URL; the Power entry holds the
    system-level URL after the fifth assignment of the pass and is the
    empty string after the ninth. *)
Lemma empty_chassis_link_clears_power :
  ~ append_only_on every_key
      (pass_points (after_session empty_chassis_power)
         (get_base_labels empty_chassis_power "bmc" "admin" "secret"
            (after_session empty_chassis_power)).2).
Proof.
  intros H.
  apply (append_only_lookup _ _ 5%nat 9%nat "Power"
           (JStr "/redfish/v1/Systems/1/Power") H I).
  - lia.
  - vm_compute. reflexivity.
  - discriminate.
  - vm_compute. reflexivity.
Qed.

(** The statements after the commented-out older version (lines 488-490)
    assign Power from the system resource once more: a Power URL that only
    the chassis provides is there after the ninth assignment of the pass
    and gone after the thirteenth, and stays gone when the second fetch of
    the chassis fails. *)
Lemma leftover_block_clears_chassis_power :
  let points :=
    pass_points (after_session chassis_only_power)
      (get_base_labels chassis_only_power "bmc" "admin" "secret"
         (after_session chassis_only_power)).2 in
  points !! 9%nat ≫= lookup "Power" = Some (JStr "/redfish/v1/Chassis/1/Power") /\
  points !! 13%nat ≫= lookup "Power" = Some (JStr "") /\
  urls (get_base_labels chassis_only_power "bmc" "admin" "secret"
          (after_session chassis_only_power)).2 !! "Power" = Some (JStr "").
Proof. repeat split; vm_compute; reflexivity. Qed.

(** C6, amended: in a pass that starts with the discovered entries empty,
    against a server that serves no empty URL in a PowerSubsystem, Power,
    ThermalSubsystem or Thermal link, no entry of the resource map that
    holds a non-empty URL reverts to the empty string up to and including
    the first chassis step (lines 321-418), and no entry other than Power
    and Thermal does so anywhere in the pass. *)
Theorem discovery_append_only w host usr pwd s :
  fresh s -> serves_no_empty_chassis_link w ->
  append_only_on every_key (pass_points s (discover_system w host usr pwd s).2) /\
  append_only_on not_power_or_thermal
    (pass_points s (get_base_labels w host usr pwd s).2) /\
  exists later,
    pass_points s (get_base_labels w host usr pwd s).2
    = (pass_points s (discover_system w host usr pwd s).2 ++ later)%list.
Proof.
  intros Hfresh Hw.
  pose proof (discover_system_tracked w host usr pwd s Hfresh Hw) as Hfirst.
  split; [exact (tracked_append_only _ _ _ Hfirst) |].
  split; [exact (tracked_append_only _ _ _ (get_base_labels_tracked w host usr pwd s Hfresh Hw)) |].
  destruct Hfirst as (suffix & Htrace & _).
  destruct (discover_system_prefix w host usr pwd s) as (later & Hlater).
  exists later. unfold pass_points. rewrite Hlater, Htrace.
  rewrite <- app_assoc, !drop_app_length. reflexivity.
Qed.

Lemma chassis_only_power_served : serves_no_empty_chassis_link chassis_only_power.
Proof.
  intros n q r d k lnk Hr Hbody Hk Hlnk.
  destruct n as [| [| [| [| [| [| n]]]]]]; simpl in Hr; try discriminate Hr;
    injection Hr as <-; simpl in Hbody; injection Hbody as <-.
  all: unfold chassis_keys in Hk; rewrite !elem_of_cons, elem_of_nil in Hk.
  all: repeat (destruct Hk as [-> | Hk]; [simpl in Hlnk; simplify_eq; try discriminate |]);
    try contradiction.
Qed.

Lemma after_session_fresh : fresh (after_session chassis_only_power).
Proof.
  intros k Hk. unfold discovered_keys, direct_keys, chassis_keys in Hk. simpl in Hk.
  rewrite !elem_of_cons, elem_of_nil in Hk.
  repeat (destruct Hk as [-> | Hk]; [vm_compute; reflexivity |]). contradiction.
Qed.

Lemma discovery_append_only_witness :
  append_only_on every_key
    (pass_points (after_session chassis_only_power)
       (discover_system chassis_only_power "bmc" "admin" "secret"
          (after_session chassis_only_power)).2).
Proof.
  exact (proj1 (discovery_append_only chassis_only_power "bmc" "admin" "secret"
                  (after_session chassis_only_power)
                  after_session_fresh chassis_only_power_served)).
Defined.

(** * Further properties of the methods *)

(** ** Further properties of [connect_server] *)

(** X1: when the request of [connect_server] fails in the transport, the
    method does not raise: it returns the empty string and records 408
    for a connect or read timeout, 444 for a connection error and 500 for
    any other request exception. *)
Theorem connect_server_transport_failure w usr pwd command noauth basic_auth s e :
  w (List.length (exchanges s))
    (GET command (prepare_session usr pwd noauth basic_auth s)) = Failed e ->
  (connect_server w usr pwd command noauth basic_auth s).1 = Val (JStr "") /\
  _last_http_code (connect_server w usr pwd command noauth basic_auth s).2
  = match e with
    | ConnectTimeout | ReadTimeout => 408
    | ConnectionError => 444
    | OtherRequestException => 500
    end.
Proof.
  intros Ho. rewrite connect_server_eq. cbv zeta. rewrite Ho.
  destruct e; split; reflexivity.
Qed.

Lemma connect_server_transport_failure_witness :
  (connect_server times_out "admin" "secret" (JStr "/redfish/v1") true false
     (init "bmc")).1 = Val (JStr "") /\
  _last_http_code
    (connect_server times_out "admin" "secret" (JStr "/redfish/v1") true false
       (init "bmc")).2 = 408.
Proof.
  apply (connect_server_transport_failure times_out "admin" "secret"
           (JStr "/redfish/v1") true false (init "bmc") ReadTimeout).
  reflexivity.
Defined.



(** X3: every call of [connect_server] sends exactly one request, a GET
    for the given command, whatever the outcome: there is no retry.  The
    session object it went through is the one the collector keeps. *)
Theorem connect_server_single_request w usr pwd command noauth basic_auth s :
  exists via o,
    exchanges (connect_server w usr pwd command noauth basic_auth s).2
    = (exchanges s ++ [(GET command via, o)])%list /\
    _session (connect_server w usr pwd command noauth basic_auth s).2 = Some via.
Proof.
  rewrite connect_server_eq. cbv zeta. eexists _, _. split; reflexivity.
Qed.

(** X4: a call with [noauth] does not strip credentials: after a call
    that used basic authentication, the request of a [noauth] call still
    carries the user name and password. *)
Theorem noauth_keeps_credentials w usr pwd c1 c2 basic_auth s :
  exists via o,
    last (exchanges
            (connect_server w usr pwd c2 true basic_auth
               (connect_server w usr pwd c1 false true s).2).2)
    = Some (GET c2 via, o) /\
    auth via = Some (usr, pwd).
Proof.
  rewrite !connect_server_eq. cbv zeta. simpl.
  eexists _, _. rewrite last_snoc. split; [reflexivity |].
  unfold prepare_session. simpl. reflexivity.
Qed.

(** X5: the token header stays on the session under basic
    authentication: after a call in token mode, the request of a call
    with basic authentication carries both the credentials and the
    [X-Auth-Token] header. *)
Theorem basic_auth_keeps_token_header w usr pwd c1 c2 s :
  _basic_auth s = false ->
  exists via o,
    last (exchanges
            (connect_server w usr pwd c2 false true
               (connect_server w usr pwd c1 false false s).2).2)
    = Some (GET c2 via, o) /\
    via = {| auth := Some (usr, pwd); x_auth_token := Some (_auth_token s) |}.
Proof.
  intros Hb. rewrite !connect_server_eq. cbv zeta. simpl.
  eexists _, _. rewrite last_snoc. split; [reflexivity |].
  unfold prepare_session. simpl. rewrite Hb. reflexivity.
Qed.

Lemma basic_auth_keeps_token_header_witness :
  exists via o,
    last (exchanges
            (connect_server times_out "admin" "secret" (JStr "/b") false true
               (connect_server times_out "admin" "secret" (JStr "/a") false false
                  (init "bmc")).2).2)
    = Some (GET (JStr "/b") via, o) /\
    via = {| auth := Some ("admin", "secret"); x_auth_token := Some (JStr "") |}.
Proof.
  apply (basic_auth_keeps_token_header times_out "admin" "secret"
           (JStr "/a") (JStr "/b") (init "bmc")).
  reflexivity.
Defined.

(** ** Further properties of [get_session] *)

Lemma inv_send w I q :
  (forall q o s, I s -> I (record_exchange q o s)) -> invariant I (send w q).
Proof. intros Hex s Hs. simpl. auto. Qed.

Lemma negotiation_frame_refl s : negotiation_frame s s.
Proof. unfold negotiation_frame. repeat split. Qed.

(** X6: [get_session] assigns no entry of [urls] other than [Systems]
    and [SessionService], and it leaves the labels, the identity fields,
    the power state, the health code and the summary samples as they
    were, however it ends. *)
Theorem get_session_frame w usr pwd s :
  negotiation_frame s (get_session w usr pwd s).2.
Proof.
  assert (Hinv : invariant (negotiation_frame s) (get_session w usr pwd));
    [| exact (Hinv s (negotiation_frame_refl s))].
  assert (Hblind : transport_blind (negotiation_frame s))
    by (unfold transport_blind, negotiation_frame; simpl; auto).
  unfold get_session, locate_sessions, post_session, accept_session.
  repeat first
    [ apply connect_server_invariant, Hblind
    | apply inv_send, Hblind
    | apply inv_for_each; intros key Hkey
    | inv_step
    | solve [auto] ].
  intros x (Hurls & Hrest). split; [| exact Hrest].
  intros k Hk. simpl. rewrite lookup_insert_ne; [auto |].
  intros ->. apply Hk. exact Hkey.
Qed.

Lemma get_session_requests w usr pwd s r s' :
  exchanges s = [] -> _session s = None -> _basic_auth s = false ->
  get_session w usr pwd s = (r, s') ->
  negotiation_requests usr pwd (exchanges s').
Proof.
  intros Hex Hsess Hbasic Hrun.
  unfold get_session, locate_sessions, post_session, accept_session, get_url, send, ok
    in Hrun.
  exec_in Hrun Hex.
  all: injection Hrun as <- <-; simpl; rewrite ?Hex; simpl.
  all: unfold prepare_session, anonymous, with_password, link_target in *;
       simpl in *; rewrite ?Hsess in *; simpl in *.
  all: try solve [finish].
  all: repeat match goal with
              | H : <[_:=_]> _ !! _ = Some _ |- _ =>
                  rewrite lookup_insert_eq in H; injection H as <-
              end.
  all: try (split; [reflexivity |]).
  all: solve [repeat first [eexists | split]; eauto].
Qed.

(** X7: the requests of [get_session] on a new collector are, in this
    order: the service root without credentials; the SessionService link
    of the root document with basic authentication; the POST of the
    credentials to the Sessions link of the SessionService document,
    without basic authentication; and the same POST once more, sent only
    after the first one failed on a connection error.  The run sends at
    least one and at most four requests. *)
Theorem get_session_request_sequence w host usr pwd :
  negotiation_requests usr pwd (exchanges (get_session w usr pwd (init host)).2).
Proof.
  destruct (get_session w usr pwd (init host)) as [r s'] eqn:Hrun.
  exact (get_session_requests w usr pwd (init host) r s' eq_refl eq_refl eq_refl Hrun).
Qed.

Lemma get_session_fallback w usr pwd s r s' :
  exchanges s = [] -> _basic_auth s = false ->
  get_session w usr pwd s = (r, s') ->
  _basic_auth s' = true ->
  r = Val JNull /\
  _redfish_up s' = _redfish_up s /\
  _auth_token s' = _auth_token s /\
  _session_url s' = _session_url s.
Proof.
  intros Hex Hbasic Hrun.
  unfold get_session, locate_sessions, post_session, accept_session, get_url, send, ok
    in Hrun.
  exec_in Hrun Hex.
  all: injection Hrun as <- <-; simpl; rewrite ?Hex; simpl.
  all: solve [finish].
Qed.

Lemma collect_down w host usr pwd s :
  _redfish_up s = 0 -> collect w host usr pwd s = (Val JNull, s).
Proof. intros Hup. unfold collect. simpl. rewrite Hup. reflexivity. Qed.

(** X8: the fallback to basic authentication leaves the up flag at 0,
    the token and the session URL empty, and so [collect] returns before
    [get_base_labels]: a scrape that fell back to basic authentication
    sends no request after those of [get_session] and discovers
    nothing. *)
Theorem basic_auth_skips_discovery w host usr pwd :
  _basic_auth (get_session w usr pwd (init host)).2 = true ->
  _redfish_up (get_session w usr pwd (init host)).2 = 0 /\
  _auth_token (get_session w usr pwd (init host)).2 = JStr "" /\
  scrape w host usr pwd (init host)
  = (Val JNull, (get_session w usr pwd (init host)).2).
Proof.
  intros Hb. unfold scrape.
  destruct (get_session w usr pwd (init host)) as [r s'] eqn:Hrun.
  destruct (get_session_fallback w usr pwd (init host) r s' eq_refl eq_refl Hrun Hb)
    as (-> & Hup & Htok & _).
  simpl in *. split; [exact Hup |]. split; [exact Htok |].
  rewrite Hrun. rewrite collect_down by exact Hup. reflexivity.
Qed.

Lemma basic_auth_skips_discovery_witness :
  scrape refuses_session_service "bmc" "admin" "secret" (init "bmc")
  = (Val JNull, (get_session refuses_session_service "admin" "secret" (init "bmc")).2).
Proof.
  apply (basic_auth_skips_discovery refuses_session_service "bmc" "admin" "secret").
  vm_compute. reflexivity.
Defined.

Lemma truthy_dict (d : list (string * json)) :
  d <> [] -> match d with [] => false | _ :: _ => true end = true.
Proof. destruct d; congruence. Qed.

(** X9: a service root document that cannot be used ends [get_session]
    with a normal return after that one request, with the up flag and
    the authentication mode as they were.  For an empty document nothing
    else changes; for a document without a [Systems] member the resource
    map is unchanged; for a document with a [Systems] link and without a
    [SessionService] member the [Systems] entry has already been
    assigned. *)
Theorem get_session_incomplete_root w usr pwd s d s1 :
  connect_server w usr pwd (JStr "/redfish/v1") true false s = (Val (JDict d), s1) ->
  let r := (get_session w usr pwd s).1 in
  let s' := (get_session w usr pwd s).2 in
  (d = [] -> r = Val JNull /\ s' = s1) /\
  (d <> [] -> Py.assoc "Systems" d = None ->
     r = Val JNull /\ urls s' = urls s /\ exchanges s' = exchanges s1 /\
     _redfish_up s' = _redfish_up s /\ _basic_auth s' = _basic_auth s) /\
  (forall lnk v, Py.assoc "Systems" d = Some lnk -> Py.item lnk "@odata.id" = Ok v ->
     Py.assoc "SessionService" d = None ->
     r = Val JNull /\ urls s' = <["Systems" := v]> (urls s) /\
     exchanges s' = exchanges s1 /\
     _redfish_up s' = _redfish_up s /\ _basic_auth s' = _basic_auth s).
Proof.
  intros Hroot.
  assert (Hs1 : urls s1 = urls s /\ _redfish_up s1 = _redfish_up s /\
                _basic_auth s1 = _basic_auth s).
  { rewrite connect_server_eq in Hroot. injection Hroot as _ <-. repeat split. }
  destruct Hs1 as (Hu & Hup & Hb).
  unfold get_session, locate_sessions. simpl. rewrite Hroot. simpl.
  split; [| split].
  - intros ->. split; reflexivity.
  - intros Hd Hsys. rewrite (truthy_dict d Hd). simpl.
    rewrite for_each_cons. simpl. rewrite Hsys.
    destruct (Py.assoc "RedfishVersion" d); simpl; auto.
  - intros lnk v Hsys Hv Hss.
    assert (Hd : d <> []) by (intros ->; discriminate Hsys).
    rewrite (truthy_dict d Hd). simpl.
    rewrite !for_each_cons. simpl. rewrite Hsys, Hss. simpl. rewrite Hv.
    destruct (Py.assoc "RedfishVersion" d); simpl; rewrite Hu; auto.
Qed.

Lemma get_session_incomplete_root_witness :
  (get_session root_without_session_service "admin" "secret" (init "bmc")).1 = Val JNull /\
  urls (get_session root_without_session_service "admin" "secret" (init "bmc")).2
  = <["Systems" := JStr "/redfish/v1/Systems"]> (urls (init "bmc")) /\
  exchanges (get_session root_without_session_service "admin" "secret" (init "bmc")).2
  = exchanges (connect_server root_without_session_service "admin" "secret"
                 (JStr "/redfish/v1") true false (init "bmc")).2 /\
  _redfish_up (get_session root_without_session_service "admin" "secret" (init "bmc")).2
  = _redfish_up (init "bmc") /\
  _basic_auth (get_session root_without_session_service "admin" "secret" (init "bmc")).2
  = _basic_auth (init "bmc").
Proof.
  apply (proj2 (proj2 (get_session_incomplete_root root_without_session_service
           "admin" "secret" (init "bmc")
           [("RedfishVersion", JStr "1.6.0"); ("Systems", link "/redfish/v1/Systems")]
           (connect_server root_without_session_service "admin" "secret"
              (JStr "/redfish/v1") true false (init "bmc")).2
           eq_refl)) (link "/redfish/v1/Systems") (JStr "/redfish/v1/Systems"));
    reflexivity.
Defined.
(** ** Teardown *)

Lemma get_session_leaves w usr pwd s r s' :
  exchanges s = [] -> _basic_auth s = false -> _auth_token s = JStr "" ->
  get_session w usr pwd s = (r, s') ->
  (exists via, _session s' = Some via) /\
  (Py.truthy (_auth_token s') = true ->
     exists earlier lnk u p via a,
       exchanges s' = (earlier ++ [(POST lnk u p via, Responded a)])%list /\
       (status_code a = 200 \/ status_code a = 201) /\
       _auth_token s' = header "X-Auth-Token" (headers a)).
Proof.
  intros Hex Hbasic Htok Hrun.
  unfold get_session, locate_sessions, post_session, accept_session, get_url, send, ok
    in Hrun.
  exec_in Hrun Hex.
  all: injection Hrun as <- <-; simpl; rewrite ?Hex, ?Htok; simpl.
  all: (split; [eexists; reflexivity |]).
  all: try (intros Ht; discriminate Ht).
  all: bool_facts.
  all: intros Ht.
  all: try match goal with
           | |- exists earlier lnk u p via a,
                  [?x; ?y; (POST ?l ?u' ?p' ?v, Responded ?r)] = _ /\ _ =>
               exists [x; y], l, u', p', v, r
           | |- exists earlier lnk u p via a,
                  [?x; ?y; ?z; (POST ?l ?u' ?p' ?v, Responded ?r)] = _ /\ _ =>
               exists [x; y; z], l, u', p', v, r
           end.
  all: try (split; [reflexivity |]; split; [| reflexivity]).
  all: try match goal with
           | H : (status_code _ =? 200) || (status_code _ =? 201) = true |- _ =>
               apply orb_true_iff in H as [H | H]; apply Z.eqb_eq in H; auto
           end.
Qed.

(** X10: teardown after a negotiation.  Whatever [get_session] did on a
    new collector and whatever becomes of the DELETE, [__exit__] does
    not raise and closes the collector's session.  It issues a DELETE
    exactly when a token is held; that token is then the [X-Auth-Token]
    header of a 200/201 answer to the session POST of this run, and the
    DELETE names the stored session URL.  With the up flag at 1 the
    DELETE is issued; after a fallback to basic authentication it is
    not. *)
Theorem teardown_after_session w d host usr pwd :
  let s' := (get_session w usr pwd (init host)).2 in
  (__exit__ d s').1 = Val JNull /\
  session_closed (__exit__ d s').2 = true /\
  (forall q, deleted (__exit__ d s').2 = Some q ->
     exists earlier lnk u p via a,
       exchanges s' = (earlier ++ [(POST lnk u p via, Responded a)])%list /\
       (status_code a = 200 \/ status_code a = 201) /\
       q = DELETE (_session_url s') (header "X-Auth-Token" (headers a))) /\
  (deleted (__exit__ d s').2 = None <-> Py.truthy (_auth_token s') = false) /\
  (_redfish_up s' = 1 ->
     deleted (__exit__ d s').2 = Some (DELETE (_session_url s') (_auth_token s'))) /\
  (_basic_auth s' = true -> deleted (__exit__ d s').2 = None).
Proof.
  destruct (get_session w usr pwd (init host)) as [r s'] eqn:Hrun. simpl.
  destruct (get_session_leaves w usr pwd (init host) r s' eq_refl eq_refl eq_refl Hrun)
    as ((via & Hsess) & Htoken).
  destruct (get_session_up w usr pwd (init host) r s' eq_refl eq_refl eq_refl Hrun)
    as [Hup | (Hup & Ht & _)].
  all: destruct (get_session_basic w usr pwd (init host) r s' eq_refl eq_refl Hrun)
         as (_ & Hret).
  all: pose proof (get_session_fallback w usr pwd (init host) r s' eq_refl eq_refl Hrun)
         as Hfall.
  all: unfold __exit__; rewrite Hsess.
  all: destruct (Py.truthy (_auth_token s')) eqn:Htruthy.
  all: try destruct (d _); simpl.
  all: repeat split; try congruence; try lia.
  all: try (intros q Hq; injection Hq as <-;
            destruct (Htoken eq_refl) as (earlier & lnk & u & p & v & a & He & Hst & Ht');
            exists earlier, lnk, u, p, v, a; rewrite Ht'; auto).
  all: intros Hb; destruct (Hfall Hb) as (_ & _ & Ht' & _);
       rewrite Ht' in Htruthy; discriminate Htruthy.
Qed.

(** X11: a session that cannot be deleted.  When the 200/201 answer to
    the session POST carries a token but neither a [Location] header nor
    an [@odata.id] member, the up flag stays 0 and the session URL stays
    empty, yet the token is kept: [__exit__] then issues its DELETE for
    the bare address of the target, with that token. *)
Theorem teardown_without_session_url w d host usr pwd earlier lnk u p via a :
  let s' := (get_session w usr pwd (init host)).2 in
  exchanges s' = (earlier ++ [(POST lnk u p via, Responded a)])%list ->
  status_code a = 200 \/ status_code a = 201 ->
  Py.truthy (header "X-Auth-Token" (headers a)) = true ->
  Py.truthy (header "Location" (headers a)) = false ->
  (forall b v, body a = Some (JDict b) ->
     Py.get (JDict b) "@odata.id" JNull = Ok v -> Py.truthy v = false) ->
  _redfish_up s' = 0 /\
  deleted (__exit__ d s').2
  = Some (DELETE (JStr "") (header "X-Auth-Token" (headers a))).
Proof.
  destruct (get_session w usr pwd (init host)) as [r s'] eqn:Hrun. simpl.
  intros Hlast Hstatus Htoken Hloc Hbody.
  destruct (get_session_accept w usr pwd (init host) r s' earlier lnk u p via a
              eq_refl eq_refl eq_refl Hrun Hlast Hstatus)
    as (Htok & _ & _ & _ & Hnone & _).
  destruct (Hnone Htoken Hloc Hbody) as (Hup & Hurl).
  split; [exact Hup |].
  unfold __exit__. rewrite Htok, Htoken, Hurl.
  destruct (d _); reflexivity.
Qed.

Lemma teardown_without_session_url_witness :
  _redfish_up (get_session token_without_location "admin" "secret" (init "bmc")).2 = 0 /\
  deleted (__exit__ delete_fails
             (get_session token_without_location "admin" "secret" (init "bmc")).2).2
  = Some (DELETE (JStr "") (JStr "0123abcd")).
Proof.
  apply (teardown_without_session_url token_without_location delete_fails
           "bmc" "admin" "secret"
           (take 2 (exchanges (get_session token_without_location "admin" "secret"
                                 (init "bmc")).2))
           (JStr "/redfish/v1/SessionService/Sessions") "admin" "secret"
           {| auth := None; x_auth_token := None |}
           {| status_code := 201; headers := [("X-Auth-Token", "0123abcd")];
              body := Some (JDict [("Id", JStr "7")]) |}).
  - vm_compute. reflexivity.
  - right. reflexivity.
  - reflexivity.
  - reflexivity.
  - intros b v Hb Hv. injection Hb as <-. injection Hv as <-. reflexivity.
Defined.

(** ** Further properties of the discovery *)

(** X12: the first reference under [Links] resolves to the same URL in
    both forms.  When the first entry of the list is a bare string, or an
    object whose [@odata.id] member is [v], both the link extraction of
    lines 404-413 and the one of lines 493-507 assign that URL to the
    entry and go on; entries after the first play no role. *)
Theorem first_link_forms info name refs ref v s :
  link_list info name = Ok refs -> Py.truthy refs = true -> Py.first refs = Ok ref ->
  (ref = v /\ Py.isinstance_str v = true) \/
  (exists d, ref = JDict d /\ Py.assoc "@odata.id" d = Some v) ->
  set_first_link info name s = (Val tt, assign_url name v s) /\
  reset_first_link info name s = (Val tt, assign_url name v s).
Proof.
  unfold link_list, set_first_link, reset_first_link. simpl.
  intros -> Ht Href Hform. simpl. rewrite Ht, Href. simpl.
  destruct Hform as [[-> Hstr] | (d & -> & Hd)].
  - destruct v; try discriminate Hstr. split; reflexivity.
  - simpl. rewrite Hd. split; reflexivity.
Qed.

Lemma first_link_forms_witness :
  set_first_link bare_chassis_reference "Chassis" (init "bmc")
  = (Val tt, assign_url "Chassis" (JStr "/redfish/v1/Chassis/1") (init "bmc")) /\
  reset_first_link bare_chassis_reference "Chassis" (init "bmc")
  = (Val tt, assign_url "Chassis" (JStr "/redfish/v1/Chassis/1") (init "bmc")).
Proof.
  apply (first_link_forms bare_chassis_reference "Chassis"
           (JList [JStr "/redfish/v1/Chassis/1"]) (JStr "/redfish/v1/Chassis/1")
           (JStr "/redfish/v1/Chassis/1") (init "bmc")).
  - reflexivity.
  - reflexivity.
  - reflexivity.
  - left. split; reflexivity.
Defined.

(** X13: without references the entry is not touched.  When the list
    under [Links] is missing or empty, neither link extraction assigns
    the entry: it keeps the value it had, and the collector is
    unchanged. *)
Theorem first_link_absent info name refs s :
  link_list info name = Ok refs -> Py.truthy refs = false ->
  set_first_link info name s = (Val tt, s) /\
  reset_first_link info name s = (Val tt, s).
Proof.
  unfold link_list, set_first_link, reset_first_link. simpl.
  intros -> Ht. simpl. rewrite Ht. split; reflexivity.
Qed.

Lemma first_link_absent_witness :
  set_first_link (JDict powered_on) "ManagedBy" (init "bmc") = (Val tt, init "bmc") /\
  reset_first_link (JDict powered_on) "ManagedBy" (init "bmc") = (Val tt, init "bmc").
Proof.
  apply (first_link_absent (JDict powered_on) "ManagedBy" (JList []) (init "bmc"));
    reflexivity.
Defined.

Lemma power_states_default k :
  default 0 (power_states !! k) = if String.eqb k "on" then 1 else 0.
Proof.
  unfold power_states. simpl.
  destruct (String.eqb_spec k "on") as [-> | Hon]; [reflexivity |].
  destruct (String.eqb_spec k "off") as [-> | Hoff]; [reflexivity |].
  rewrite !lookup_insert_ne by congruence. reflexivity.
Qed.

(** X14: the power state.  When the label extraction runs to its end,
    the [PowerState] member, taken as [off] when it is missing, is a
    string, and the power state is 1 exactly when that string is [on] in
    any mix of upper and lower case; it is 0 for every other string. *)
Theorem power_state_normalised host d s s' :
  extract_labels host (JDict d) s = (Val tt, s') ->
  exists raw,
    match Py.assoc "PowerState" d with Some v => v | None => JStr "off" end = JStr raw /\
    powerstate s' = if String.eqb (Py.lower_string raw) "on" then 1 else 0.
Proof.
  intros Hrun. unfold extract_labels in Hrun. exec_run Hrun.
  all: try discriminate Hrun.
  all: injection Hrun as <-; simpl.
  all: rewrite power_states_default.
  all: try match goal with
           | H : Py.lower ?v = Ok ?k |- _ =>
               destruct v; try discriminate H; injection H as <-
           end.
  all: eexists; split; reflexivity.
Qed.

Lemma power_state_normalised_witness :
  exists raw,
    match Py.assoc "PowerState" powered_on with Some v => v | None => JStr "off" end
    = JStr raw /\
    powerstate (extract_labels "bmc" (JDict powered_on) (init "bmc")).2
    = if String.eqb (Py.lower_string raw) "on" then 1 else 0.
Proof.
  apply (power_state_normalised "bmc" powered_on (init "bmc")
           (extract_labels "bmc" (JDict powered_on) (init "bmc")).2).
  vm_compute. reflexivity.
Defined.

(** X15: the labels follow the identity.  When the label extraction
    runs to its end, manufacturer and model are non-empty, the labels
    [host], [server_manufacturer], [server_model] and [server_serial]
    hold the host name and the identity fields just stored, and every
    other label is as it was.  When it returns at its guard instead, the
    labels and the power state are as they were. *)
Theorem labels_follow_identity host info s r s' :
  extract_labels host info s = (r, s') ->
  (r = Val tt ->
     Py.truthy (manufacturer s') = true /\ Py.truthy (model s') = true /\
     labels s' !! "host" = Some (JStr host) /\
     labels s' !! "server_manufacturer" = Some (manufacturer s') /\
     labels s' !! "server_model" = Some (model s') /\
     labels s' !! "server_serial" = Some (serial s') /\
     forall k, k ∉ label_keys -> labels s' !! k = labels s !! k) /\
  (forall v, r = Return v -> labels s' = labels s /\ powerstate s' = powerstate s).
Proof.
  intros Hrun. unfold extract_labels in Hrun. exec_run Hrun.
  all: injection Hrun as <- <-; simpl.
  all: split; [intros Hr; try discriminate Hr | intros v Hr; try discriminate Hr].
  all: try (split; reflexivity).
  all: bool_facts.
  all: repeat (split; [first [ assumption | reflexivity
                              | rewrite ?lookup_insert_ne by discriminate;
                                apply lookup_insert_eq ] |]).
  all: intros k Hk; unfold label_keys in Hk.
  all: rewrite !lookup_insert_ne; [reflexivity | ..].
  all: intros <-; apply Hk; rewrite !elem_of_cons; auto.
Qed.

Lemma labels_follow_identity_witness :
  labels (extract_labels "bmc" (JDict powered_on) (init "bmc")).2 !! "server_model"
  = Some (model (extract_labels "bmc" (JDict powered_on) (init "bmc")).2).
Proof.
  apply (labels_follow_identity "bmc" (JDict powered_on) (init "bmc") (Val tt)
           (extract_labels "bmc" (JDict powered_on) (init "bmc")).2).
  - vm_compute. reflexivity.
  - reflexivity.
Defined.

(** X16: nothing to discover.  When the Systems collection cannot be
    read, is empty, or has a missing or empty [Members] list,
    [get_base_labels] returns [None] after that one request: the
    collector is as [connect_server] left it, so the resource map, the
    identity, the labels and the samples are untouched. *)
Theorem get_base_labels_without_members w host usr pwd s c doc s1 :
  urls s !! "Systems" = Some c ->
  connect_server w usr pwd c false false s = (Val doc, s1) ->
  Py.truthy doc = false \/
  (exists members, Py.get doc "Members" (JList []) = Ok members /\
                   Py.truthy members = false) ->
  get_base_labels w host usr pwd s = (Val JNull, s1).
Proof.
  intros Hc Hfetch Hdoc.
  unfold get_base_labels, discover_system, fetch_server_info, get_url. simpl.
  rewrite Hc. simpl. rewrite Hfetch. simpl.
  destruct Hdoc as [Hd | (members & Hm & Hempty)].
  - rewrite Hd. reflexivity.
  - destruct (Py.truthy doc); simpl; [| reflexivity].
    rewrite Hm. simpl. rewrite Hempty. reflexivity.
Qed.

Lemma get_base_labels_without_members_witness :
  get_base_labels serves_no_systems "bmc" "admin" "secret" knows_systems
  = (Val JNull,
     (connect_server serves_no_systems "admin" "secret" (JStr "/redfish/v1/Systems")
        false false knows_systems).2).
Proof.
  apply (get_base_labels_without_members serves_no_systems "bmc" "admin" "secret"
           knows_systems (JStr "/redfish/v1/Systems")
           (JDict [("Name", JStr "Computer System Collection"); ("Members", JList [])])).
  - reflexivity.
  - reflexivity.
  - right. exists (JList []). split; reflexivity.
Defined.

(** X17: only the first member counts.  When the Systems collection
    lists members, the system resource that is fetched is the
    [@odata.id] of the first one, whatever follows it in the list: that
    URL is stored in [_systems_url] and, when it is not empty, is the
    command of the one further request of [fetch_server_info]; when it
    is missing or empty, no further request is sent. *)
Theorem first_member_only w usr pwd s c doc s1 member rest u :
  urls s !! "Systems" = Some c ->
  connect_server w usr pwd c false false s = (Val doc, s1) ->
  Py.get doc "Members" (JList []) = Ok (JList (member :: rest)) ->
  Py.get member "@odata.id" JNull = Ok u ->
  let s' := (fetch_server_info w usr pwd s).2 in
  _systems_url s' = Some u /\
  (Py.truthy u = true ->
     exists via o, exchanges s' = (exchanges s1 ++ [(GET u via, o)])%list) /\
  (Py.truthy u = false ->
     fetch_server_info w usr pwd s = (Return JNull, set__systems_url (Some u) s1)).
Proof.
  intros Hc Hfetch Hm Hu.
  assert (Hdoc : Py.truthy doc = true).
  { destruct doc as [| | | | | d]; try discriminate Hm.
    destruct d; [discriminate Hm | reflexivity]. }
  unfold fetch_server_info, get_url. simpl.
  rewrite Hc. simpl. rewrite Hfetch. simpl. rewrite Hdoc, Hm. simpl. rewrite Hu. simpl.
  destruct (Py.truthy u) eqn:Htruthy; simpl.
  - rewrite connect_server_eq. cbv zeta.
    split; [| split; [| discriminate]].
    + destruct (fetched _) as [v |]; simpl; [destruct (Py.truthy v) |]; reflexivity.
    + intros _. eexists _, _.
      destruct (fetched _) as [v |]; simpl; [destruct (Py.truthy v) |]; reflexivity.
  - split; [reflexivity |]. split; [discriminate | reflexivity].
Qed.

Lemma first_member_only_witness :
  _systems_url (fetch_server_info serves_two_systems "admin" "secret" knows_systems).2
  = Some (JStr "/redfish/v1/Systems/1").
Proof.
  apply (first_member_only serves_two_systems "admin" "secret" knows_systems
           (JStr "/redfish/v1/Systems") two_systems
           (connect_server serves_two_systems "admin" "secret"
              (JStr "/redfish/v1/Systems") false false knows_systems).2
           (link "/redfish/v1/Systems/1") [link "/redfish/v1/Systems/2"]
           (JStr "/redfish/v1/Systems/1"));
    reflexivity.
Defined.

(** ** The requests of the discovery *)

Section Steps.

Variable w : remote.
Variables host usr pwd : string.
Variable via : session.

Lemma sent_through_refl k s : sent_through via k s s.
Proof. exists []. rewrite app_nil_r. repeat split; [simpl; lia | constructor]. Qed.

Lemma sent_through_trans a b s x y :
  sent_through via a s x -> sent_through via b x y -> sent_through via (a + b) s y.
Proof.
  intros (l1 & H1 & Hn1 & Hf1) (l2 & H2 & Hn2 & Hf2).
  exists (l1 ++ l2)%list. rewrite H2, H1, <- app_assoc. split; [reflexivity |].
  split; [rewrite length_app; lia | apply Forall_app; auto].
Qed.

Lemma sent_through_weaken a b s x :
  (a <= b)%nat -> sent_through via a s x -> sent_through via b s x.
Proof. intros Hab (l & H & Hn & Hf). exists l. repeat split; auto. lia. Qed.

Lemma steps_bind {A B} a b (m : M A) (f : A -> M B) :
  steps usr pwd via a m -> (forall x, steps usr pwd via b (f x)) ->
  steps usr pwd via (a + b) (bind m f).
Proof.
  intros Hm Hf s Hs. destruct (Hm s Hs) as (Hv & Hsent). simpl.
  destruct (m s) as [[x | v | e] s1]; simpl in *.
  - destruct (Hf x s1 Hv) as (Hv' & Hsent'). split; [exact Hv' |].
    eapply sent_through_trans; eassumption.
  - split; [exact Hv |]. eapply sent_through_weaken; [| exact Hsent]. lia.
  - split; [exact Hv |]. eapply sent_through_weaken; [| exact Hsent]. lia.
Qed.

Lemma steps_call {A} k (m : M A) : steps usr pwd via k m -> steps usr pwd via k (call m).
Proof. intros Hm s Hs. rewrite snd_call. apply Hm, Hs. Qed.

Lemma steps_quiet {A} k (m : M A) : quiet usr pwd m -> steps usr pwd via k m.
Proof.
  intros Hq s Hs. destruct (Hq via (exchanges s) s (conj Hs eq_refl)) as (Hv & He).
  split; [exact Hv |]. exists []. rewrite app_nil_r.
  repeat split; [exact He | simpl; lia | constructor].
Qed.

Lemma prepare_session_settled noauth basic_auth command o s :
  prepare_session usr pwd false false
    (after_fetch (prepare_session usr pwd false false s)
       (GET command (prepare_session usr pwd noauth basic_auth s)) o s)
  = prepare_session usr pwd false false s.
Proof. unfold prepare_session. simpl. destruct (_basic_auth s); reflexivity. Qed.

Lemma steps_connect k command :
  steps usr pwd via (S k) (connect_server w usr pwd command false false).
Proof.
  intros s Hs. rewrite connect_server_eq. cbv zeta. cbn [snd]. split.
  - rewrite <- Hs. apply (prepare_session_settled false false).
  - eexists [_]. split; [reflexivity |]. split; [simpl; lia |].
    constructor; [| constructor]. simpl. rewrite Hs. eauto.
Qed.

End Steps.

Ltac quiet_step :=
  first
    [ apply inv_modify; intros ? ?; assumption
    | apply inv_for_each; intros ? ?
    | inv_step ].

Ltac be_quiet := intros ? ?; repeat quiet_step.

Lemma quiet_extract_labels host usr pwd info : quiet usr pwd (extract_labels host info).
Proof. unfold extract_labels. be_quiet. Qed.

Lemma quiet_store_health usr pwd info : quiet usr pwd (store_health info).
Proof. unfold store_health. be_quiet. Qed.

Lemma quiet_direct_loop usr pwd info keys :
  quiet usr pwd
    (for_each keys (fun key =>
       bind (eval (link_of info key)) (fun v => modify (assign_url key v)))).
Proof. be_quiet. Qed.

Lemma quiet_set_first_link usr pwd info name : quiet usr pwd (set_first_link info name).
Proof. unfold set_first_link. be_quiet. Qed.

Lemma quiet_reset_first_link usr pwd info name : quiet usr pwd (reset_first_link info name).
Proof. unfold reset_first_link. be_quiet. Qed.

Lemma quiet_chassis_loop usr pwd doc keys :
  quiet usr pwd (for_each keys (set_chassis_url doc)).
Proof. unfold set_chassis_url. be_quiet. Qed.

Section Discovery.

Variable w : remote.
Variables host usr pwd : string.
Variable via : session.

Ltac quiet_head k :=
  apply (steps_bind usr pwd via 0 k); [apply steps_quiet; be_quiet | intros ?].

Lemma steps_get_chassis_urls k :
  steps usr pwd via (S k) (get_chassis_urls w usr pwd).
Proof.
  unfold get_chassis_urls. apply steps_call.
  quiet_head (S k).
  apply (steps_bind usr pwd via 1 k); [apply steps_connect |]. intros doc.
  apply steps_quiet. destruct (negb (Py.truthy doc)); [be_quiet |].
  intros v E. apply inv_bind; [apply quiet_chassis_loop | intros _; apply inv_return].
Qed.

Lemma steps_fetch_server_info :
  steps usr pwd via 2 (fetch_server_info w usr pwd).
Proof.
  unfold fetch_server_info.
  quiet_head 2%nat.
  apply (steps_bind usr pwd via 1 1); [apply steps_connect |]. intros systems.
  destruct (negb (Py.truthy systems)); [apply steps_quiet; be_quiet |].
  quiet_head 1%nat.
  destruct (negb (Py.truthy _)); [apply steps_quiet; be_quiet |].
  quiet_head 1%nat. quiet_head 1%nat.
  destruct (negb (Py.truthy _)); [apply steps_quiet; be_quiet |].
  apply (steps_bind usr pwd via 1 0); [apply steps_connect |]. intros info.
  apply steps_quiet. be_quiet.
Qed.

Lemma steps_set_component_urls info :
  steps usr pwd via 1 (set_component_urls w usr pwd info).
Proof.
  unfold set_component_urls.
  apply (steps_bind usr pwd via 0 1);
    [apply steps_quiet, quiet_direct_loop | intros _].
  apply (steps_bind usr pwd via 0 1);
    [apply steps_quiet, quiet_set_first_link | intros _].
  apply (steps_bind usr pwd via 0 1);
    [apply steps_quiet, quiet_set_first_link | intros _].
  apply (steps_bind usr pwd via 1 0); [apply steps_get_chassis_urls | intros _].
  apply steps_quiet. be_quiet.
Qed.

Lemma steps_extract_component_paths info :
  steps usr pwd via 1 (extract_component_paths w usr pwd info).
Proof.
  unfold extract_component_paths.
  apply (steps_bind usr pwd via 0 1);
    [apply steps_quiet, quiet_direct_loop | intros _].
  apply (steps_bind usr pwd via 0 1);
    [apply steps_quiet, quiet_reset_first_link | intros _].
  apply (steps_bind usr pwd via 0 1);
    [apply steps_quiet, quiet_reset_first_link | intros _].
  apply (steps_bind usr pwd via 1 0); [apply steps_get_chassis_urls | intros _].
  apply steps_quiet. be_quiet.
Qed.

Lemma steps_get_base_labels :
  steps usr pwd via 4 (get_base_labels w host usr pwd).
Proof.
  unfold get_base_labels, discover_system. apply steps_call.
  apply (steps_bind usr pwd via 3 1); [| apply steps_extract_component_paths].
  apply (steps_bind usr pwd via 2 1); [apply steps_fetch_server_info |]. intros info.
  apply (steps_bind usr pwd via 0 1);
    [apply steps_quiet, quiet_extract_labels | intros _].
  apply (steps_bind usr pwd via 0 1);
    [apply steps_quiet, quiet_store_health | intros _].
  apply (steps_bind usr pwd via 1 0); [apply steps_set_component_urls | intros _].
  apply steps_quiet. be_quiet.
Qed.

End Discovery.

(** X18: the requests of the discovery.  [get_base_labels] sends at
    most four requests, however it ends, and never a POST: each is a GET
    through one and the same session object, the one that the
    authentication branch of [connect_server] yields for the collector
    as the method finds it.  In token mode that object carries the token
    in the [X-Auth-Token] header and no credentials; in basic mode it
    carries the user name and password. *)
Theorem discovery_requests w host usr pwd s :
  let via := prepare_session usr pwd false false s in
  sent_through via 4 s (get_base_labels w host usr pwd s).2 /\
  (_basic_auth s = false ->
     via = {| auth := None; x_auth_token := Some (_auth_token s) |}) /\
  (_basic_auth s = true -> auth via = Some (usr, pwd)).
Proof.
  cbv zeta. split.
  - apply (steps_get_base_labels w host usr pwd _ s eq_refl).
  - unfold prepare_session. simpl. split; intros ->; reflexivity.
Qed.

(** ** The complete pass *)

Lemma bind_val_inv {A B} (m : M A) (f : A -> M B) s b s' :
  bind m f s = (Val b, s') ->
  exists a s1, m s = (Val a, s1) /\ f a s1 = (Val b, s').
Proof.
  simpl. destruct (m s) as [[a | v | e] s1]; intros H; try discriminate H. eauto.
Qed.

Lemma quiet_run usr pwd {A} (m : M A) s :
  quiet usr pwd m ->
  prepare_session usr pwd false false (m s).2 = prepare_session usr pwd false false s /\
  exchanges (m s).2 = exchanges s.
Proof. intros Hq. apply (Hq _ _ s). split; reflexivity. Qed.

Lemma chassis_entry_assign v k u x :
  k <> "Chassis" -> chassis_entry v x -> chassis_entry v (assign_url k u x).
Proof. intros Hk Hx. unfold chassis_entry. simpl. rewrite lookup_insert_ne; auto. Qed.

Ltac not_listed Hk :=
  unfold direct_keys, chassis_keys in Hk;
  repeat (apply elem_of_cons in Hk as [Hk | Hk]; [discriminate Hk |]);
  inversion Hk.

Lemma chassis_entry_direct_loop v info :
  invariant (chassis_entry v)
    (for_each direct_keys (fun key =>
       bind (eval (link_of info key)) (fun v => modify (assign_url key v)))).
Proof.
  apply direct_loop_invariant. intros k u x Hk _. apply chassis_entry_assign.
  intros ->. not_listed Hk.
Qed.

Lemma chassis_entry_chassis_step w usr pwd v :
  invariant (chassis_entry v) (get_chassis_urls w usr pwd).
Proof.
  apply get_chassis_urls_invariant.
  - unfold transport_blind, chassis_entry. simpl. auto.
  - intros k u x Hk. apply chassis_entry_assign. intros ->. not_listed Hk.
Qed.

Lemma prepare_session_systems_url usr pwd noauth basic_auth v x :
  prepare_session usr pwd noauth basic_auth (set__systems_url v x)
  = prepare_session usr pwd noauth basic_auth x.
Proof. reflexivity. Qed.

Lemma prepare_after_fetch usr pwd via q o x :
  prepare_session usr pwd false false x = via ->
  prepare_session usr pwd false false (after_fetch via q o x) = via.
Proof.
  unfold prepare_session. simpl. destruct (_basic_auth x); intros <-; reflexivity.
Qed.

Lemma fetch_server_info_val w usr pwd s info s1 :
  fetch_server_info w usr pwd s = (Val info, s1) ->
  let via := prepare_session usr pwd false false s in
  exists c0 c1 o1 o2,
    urls s !! "Systems" = Some c0 /\ _systems_url s1 = Some c1 /\
    exchanges s1 = (exchanges s ++ [(GET c0 via, o1); (GET c1 via, o2)])%list /\
    prepare_session usr pwd false false s1 = via.
Proof.
  intros Hrun. unfold fetch_server_info, get_url in Hrun. exec_run Hrun.
  all: try discriminate Hrun.
  all: injection Hrun as <- <-. 
  all: cbv zeta; rewrite ?prepare_session_systems_url, !prepare_session_settled.
  all: rewrite prepare_after_fetch
         by (rewrite prepare_session_systems_url; apply prepare_session_settled).
  all: simpl.
  all: rewrite <- app_assoc; simpl.
  all: eexists _, _, _, _; repeat split; reflexivity.
Qed.
Lemma get_chassis_urls_val w usr pwd s doc s1 :
  get_chassis_urls w usr pwd s = (Val doc, s1) ->
  let via := prepare_session usr pwd false false s in
  exists c o,
    urls s !! "Chassis" = Some c /\ urls s1 !! "Chassis" = Some c /\
    exchanges s1 = (exchanges s ++ [(GET c via, o)])%list /\
    prepare_session usr pwd false false s1 = via.
Proof.
  intros Hrun. cbv zeta.
  pose proof (chassis_entry_chassis_step w usr pwd (urls s !! "Chassis") s eq_refl)
    as Hentry.
  rewrite Hrun in Hentry. unfold chassis_entry in Hentry. simpl in Hentry.
  unfold get_chassis_urls, get_url in Hrun. simpl in Hrun.
  destruct (urls s !! "Chassis") as [c |] eqn:Hc; [| discriminate Hrun].
  simpl in Hrun. rewrite connect_server_eq in Hrun.
  exists c, (w (List.length (exchanges s))
               (GET c (prepare_session usr pwd false false s))).
  split; [reflexivity |]. split; [exact Hentry |].
  destruct (fetched _) as [d |]; [| discriminate Hrun]. simpl in Hrun.
  destruct (negb (Py.truthy d)); simpl in Hrun.
  - injection Hrun as _ <-. split; [reflexivity |]. apply prepare_session_settled.
  - match type of Hrun with
    | context [for_each ?keys ?body ?x] =>
        pose proof (quiet_run usr pwd (for_each keys body) x
                      (quiet_chassis_loop usr pwd d keys)) as (Hv & He);
        destruct (for_each keys body x) as [[[] | v | e] s2]
    end; simpl in *; try discriminate Hrun.
    all: injection Hrun as _ <-; rewrite Hv, He; split; [reflexivity |].
    all: apply prepare_session_settled.
Qed.

(** What the second link extraction does to an entry that the first one
    has set: it stores the same value again, or leaves it. *)
Lemma reset_after_set info name s s1 x :
  set_first_link info name s = (Val tt, s1) ->
  urls x !! name = urls s1 !! name ->
  (reset_first_link info name x).1 = Val tt /\
  urls (reset_first_link info name x).2 !! name = urls s1 !! name.
Proof.
  intros Hset Hx. unfold set_first_link in Hset. unfold reset_first_link.
  simpl in *.
  destruct (res_bind _ _) as [refs |]; [| discriminate Hset]. simpl in *.
  destruct (Py.truthy refs); simpl in *.
  - destruct (Py.first refs) as [ref |]; [| discriminate Hset]. simpl in *.
    destruct ref as [| b | z | u | l | d]; simpl in *.
    6: destruct (Py.assoc "@odata.id" d) as [v |]; [| discriminate Hset]; simpl in *.
    all: injection Hset as <-; simpl in *; split; [reflexivity |].
    all: rewrite ?lookup_insert_eq in *; first [reflexivity | exact Hx].
  - injection Hset as <-. split; [reflexivity | exact Hx].
Qed.
Lemma quiet_val usr pwd {A} (m : M A) s r s' :
  quiet usr pwd m -> m s = (r, s') ->
  prepare_session usr pwd false false s' = prepare_session usr pwd false false s /\
  exchanges s' = exchanges s.
Proof. intros Hq Hrun. pose proof (quiet_run usr pwd m s Hq) as H. rewrite Hrun in H. exact H. Qed.

Lemma invariant_val {A} I (m : M A) s r s' :
  invariant I m -> m s = (r, s') -> I s -> I s'.
Proof. intros Hinv Hrun Hs. pose proof (Hinv s Hs) as H. rewrite Hrun in H. exact H. Qed.

Lemma chassis_entry_other_link v info name :
  name <> "Chassis" ->
  invariant (chassis_entry v) (set_first_link info name) /\
  invariant (chassis_entry v) (reset_first_link info name).
Proof.
  intros Hname. split.
  - apply set_first_link_invariant. intros ref u x _ _. apply chassis_entry_assign, Hname.
  - apply reset_first_link_invariant. intros ref u x _ _. apply chassis_entry_assign, Hname.
Qed.

Lemma systems_url_blind v : transport_blind (fun x => _systems_url x = v).
Proof. unfold transport_blind. simpl. auto. Qed.

Lemma systems_url_kept w host usr pwd info v :
  invariant (fun x => _systems_url x = v) (extract_labels host info) /\
  invariant (fun x => _systems_url x = v) (store_health info) /\
  invariant (fun x => _systems_url x = v) (set_component_urls w usr pwd info) /\
  invariant (fun x => _systems_url x = v) (extract_component_paths w usr pwd info).
Proof.
  split; [| split; [| split]].
  - apply extract_labels_invariant; auto.
  - apply store_health_invariant; auto.
  - apply set_component_urls_invariant; [apply systems_url_blind | auto].
  - apply extract_component_paths_invariant; [apply systems_url_blind | auto].
Qed.

(** X19: a pass that runs to its end fetches the chassis twice.  When
    neither part of [get_base_labels] returns early or raises, the
    method has sent exactly four requests through one session object:
    the Systems collection, the first system, and then twice the same
    chassis URL, once from each of the two link extractions. *)
Theorem chassis_fetched_twice w host usr pwd s info s1 s2 :
  discover_system w host usr pwd s = (Val info, s1) ->
  extract_component_paths w usr pwd info s1 = (Val tt, s2) ->
  let via := prepare_session usr pwd false false s in
  exists c0 c1 c o1 o2 o3 o4,
    urls s !! "Systems" = Some c0 /\
    _systems_url s2 = Some c1 /\
    urls s2 !! "Chassis" = Some c /\
    exchanges s2
    = (exchanges s ++ [(GET c0 via, o1); (GET c1 via, o2);
                       (GET c via, o3); (GET c via, o4)])%list.
Proof.
  intros Hd He. cbv zeta.
  unfold discover_system in Hd.
  apply bind_val_inv in Hd as (info' & sa & Hfetch & Hd).
  apply bind_val_inv in Hd as ([] & sb & Hlabels & Hd).
  apply bind_val_inv in Hd as ([] & sc & Hhealth & Hd).
  apply bind_val_inv in Hd as ([] & sd & Hset & Hd).
  simpl in Hd. injection Hd as -> ->.
  assert (Hkeep : _systems_url s2 = _systems_url sa).
  { destruct (systems_url_kept w host usr pwd info (_systems_url sa))
      as (K1 & K2 & K3 & K4).
    apply (invariant_val _ _ _ _ _ K4 He).
    apply (invariant_val _ _ _ _ _ K3 Hset).
    apply (invariant_val _ _ _ _ _ K2 Hhealth).
    apply (invariant_val _ _ _ _ _ K1 Hlabels). reflexivity. }
  unfold set_component_urls in Hset.
  apply bind_val_inv in Hset as ([] & t1 & Hloop & Hset).
  apply bind_val_inv in Hset as ([] & t2 & Hchassis & Hset).
  apply bind_val_inv in Hset as ([] & t3 & Hmanager & Hset).
  apply bind_val_inv in Hset as (doc & t4 & Hstep & Hset).
  simpl in Hset. injection Hset as ->.
  unfold extract_component_paths in He.
  apply bind_val_inv in He as ([] & u1 & Hloop' & He).
  apply bind_val_inv in He as ([] & u2 & Hchassis' & He).
  apply bind_val_inv in He as ([] & u3 & Hmanager' & He).
  apply bind_val_inv in He as (doc' & u4 & Hstep' & He).
  simpl in He. injection He as ->.
  destruct (fetch_server_info_val w usr pwd s info sa Hfetch)
    as (c0 & c1 & o1 & o2 & Hsys & Hurl & Hex & Hvia).
  destruct (quiet_val usr pwd _ _ _ _ (quiet_extract_labels host usr pwd info) Hlabels)
    as (Hv1 & He1).
  destruct (quiet_val usr pwd _ _ _ _ (quiet_store_health usr pwd info) Hhealth)
    as (Hv2 & He2).
  destruct (quiet_val usr pwd _ _ _ _ (quiet_direct_loop usr pwd info direct_keys) Hloop)
    as (Hv3 & He3).
  destruct (quiet_val usr pwd _ _ _ _ (quiet_set_first_link usr pwd info "Chassis")
              Hchassis) as (Hv4 & He4).
  destruct (quiet_val usr pwd _ _ _ _ (quiet_set_first_link usr pwd info "ManagedBy")
              Hmanager) as (Hv5 & He5).
  destruct (get_chassis_urls_val w usr pwd t3 doc s1 Hstep)
    as (c & o3 & Hc3 & Hc4 & He6 & Hv6).
  destruct (quiet_val usr pwd _ _ _ _ (quiet_direct_loop usr pwd info direct_keys) Hloop')
    as (Hv7 & He7).
  destruct (quiet_val usr pwd _ _ _ _ (quiet_reset_first_link usr pwd info "Chassis")
              Hchassis') as (Hv8 & He8).
  destruct (quiet_val usr pwd _ _ _ _ (quiet_reset_first_link usr pwd info "ManagedBy")
              Hmanager') as (Hv9 & He9).
  destruct (get_chassis_urls_val w usr pwd u3 doc' s2 Hstep')
    as (c' & o4 & Hc5 & Hc6 & He10 & Hv10).
  (* the entry Chassis between the two chassis steps *)
  assert (Ht2 : urls t2 !! "Chassis" = Some c).
  { destruct (urls t2 !! "Chassis") as [v |] eqn:Hv.
    - pose proof (invariant_val _ _ _ _ _
                    (proj1 (chassis_entry_other_link (Some v) info "ManagedBy"
                              ltac:(discriminate))) Hmanager Hv) as H.
      unfold chassis_entry in H. congruence.
    - pose proof (invariant_val _ _ _ _ _
                    (proj1 (chassis_entry_other_link None info "ManagedBy"
                              ltac:(discriminate))) Hmanager Hv) as H.
      unfold chassis_entry in H. congruence. }
  assert (Hu1 : urls u1 !! "Chassis" = Some c)
    by exact (invariant_val _ _ _ _ _ (chassis_entry_direct_loop (Some c) info) Hloop' Hc4).
  assert (Hu2 : urls u2 !! "Chassis" = Some c).
  { destruct (reset_after_set info "Chassis" t1 t2 u1 Hchassis) as (_ & H).
    - congruence.
    - rewrite Hchassis' in H. simpl in H. congruence. }
  assert (Hu3 : urls u3 !! "Chassis" = Some c)
    by exact (invariant_val _ _ _ _ _
                (proj2 (chassis_entry_other_link (Some c) info "ManagedBy"
                          ltac:(discriminate))) Hmanager' Hu2).
  assert (c' = c) as -> by congruence.
  assert (Hsame : prepare_session usr pwd false false t3
                  = prepare_session usr pwd false false s) by congruence.
  assert (Hsame' : prepare_session usr pwd false false u3
                   = prepare_session usr pwd false false s) by congruence.
  exists c0, c1, c, o1, o2, o3, o4.
  split; [exact Hsys |]. split; [congruence |]. split; [exact Hc6 |].
  rewrite He10, He9, He8, He7, He6, He5, He4, He3, He2, He1, Hex, Hsame, Hsame'.
  rewrite <- !app_assoc. reflexivity.
Qed.
Lemma chassis_fetched_twice_witness :
  exists c0 c1 c o1 o2 o3 o4,
    urls (after_session chassis_only_power) !! "Systems" = Some c0 /\
    _systems_url
      (get_base_labels chassis_only_power "bmc" "admin" "secret"
         (after_session chassis_only_power)).2 = Some c1 /\
    urls (get_base_labels chassis_only_power "bmc" "admin" "secret"
            (after_session chassis_only_power)).2 !! "Chassis" = Some c /\
    exchanges (get_base_labels chassis_only_power "bmc" "admin" "secret"
                 (after_session chassis_only_power)).2
    = (exchanges (after_session chassis_only_power) ++
       [(GET c0 (prepare_session "admin" "secret" false false
                   (after_session chassis_only_power)), o1);
        (GET c1 (prepare_session "admin" "secret" false false
                   (after_session chassis_only_power)), o2);
        (GET c (prepare_session "admin" "secret" false false
                  (after_session chassis_only_power)), o3);
        (GET c (prepare_session "admin" "secret" false false
                  (after_session chassis_only_power)), o4)])%list.
Proof.
  apply (chassis_fetched_twice chassis_only_power "bmc" "admin" "secret"
           (after_session chassis_only_power) (system_resource [])
           (discover_system chassis_only_power "bmc" "admin" "secret"
              (after_session chassis_only_power)).2).
  - vm_compute. reflexivity.
  - vm_compute. reflexivity.
Defined.

(** ** Discovery and negotiation side by side *)

(** X20: the discovery leaves the negotiation alone.  However
    [get_base_labels] ends, the up flag, the token, the session URL, the
    authentication mode and the [Systems] entry are as they were, and
    the exchanges so far are a prefix of the exchanges afterwards. *)
Theorem discovery_keeps_session w host usr pwd s :
  session_frame s (get_base_labels w host usr pwd s).2.
Proof.
  apply (get_base_labels_invariant w host usr pwd (session_frame s)).
  - apply session_frame_safe.
  - apply session_frame_refl.
Qed.

Lemma discovery_sent w host usr pwd s :
  sent_through (prepare_session usr pwd false false s) 4 s
    (get_base_labels w host usr pwd s).2.
Proof. apply (steps_get_base_labels w host usr pwd _ s eq_refl). Qed.

(** X21: the discovery after a negotiation.  When [get_session] on a
    new collector has ended with the up flag at 1, a token is held, and
    the call of [get_base_labels] that [collect] then makes sends at most
    four requests, each of them a GET that carries the token of this
    negotiation in its [X-Auth-Token] header and no credentials. *)
Theorem token_mode_discovery w host usr pwd r s1 :
  get_session w usr pwd (init host) = (r, s1) ->
  _redfish_up s1 = 1 ->
  Py.truthy (_auth_token s1) = true /\
  sent_through {| auth := None; x_auth_token := Some (_auth_token s1) |} 4 s1
    (get_base_labels w host usr pwd s1).2.
Proof.
  intros Hrun Hone.
  destruct (get_session_up w usr pwd (init host) r s1 eq_refl eq_refl eq_refl Hrun)
    as [Hup | (_ & Htoken & _ & Hbasic & _)]; [rewrite Hone in Hup; discriminate Hup |].
  split; [exact Htoken |].
  pose proof (discovery_sent w host usr pwd s1) as Hdisc.
  assert (Hvia : prepare_session usr pwd false false s1
                 = {| auth := None; x_auth_token := Some (_auth_token s1) |}).
  { unfold prepare_session. simpl. rewrite Hbasic. reflexivity. }
  rewrite Hvia in Hdisc. exact Hdisc.
Qed.

Lemma token_mode_discovery_witness :
  Py.truthy (_auth_token (after_session grants_session)) = true /\
  sent_through
    {| auth := None; x_auth_token := Some (_auth_token (after_session grants_session)) |}
    4 (after_session grants_session)
    (get_base_labels grants_session "bmc" "admin" "secret"
       (after_session grants_session)).2.
Proof.
  apply (token_mode_discovery grants_session "bmc" "admin" "secret"
           (get_session grants_session "admin" "secret" (init "bmc")).1
           (after_session grants_session)).
  - vm_compute. reflexivity.
  - vm_compute. reflexivity.
Defined.

(** ** Summary samples and the protocol version *)

Ltac samples_tail :=
  rewrite ?app_nil_r;
  (split; [reflexivity |]); (split; [simpl; lia |]);
  (split; [repeat constructor; simpl; apply map_union_subseteq_l |]);
  intros Hr proc mem Hp Hm; try discriminate Hr;
  simplify_eq; simpl;
  repeat match goal with
         | H : Py.truthy ?x = _ |- _ => rewrite H
         end;
  reflexivity.

(** X22: the summary samples.  [store_health] only appends to the
    samples: at most two, and every appended sample carries all labels of
    the collector, which take precedence over the labels of the device.
    When it runs to its end, it has appended one sample for each of
    [ProcessorSummary] and [MemorySummary] that is a non-empty object,
    and none for a summary that is missing or empty. *)
Theorem store_health_samples info s r s' :
  store_health info s = (r, s') ->
  exists added,
    health_summary_metrics s' = (health_summary_metrics s ++ added)%list /\
    (List.length added <= 2)%nat /\
    Forall (fun x => labels s ⊆ sample_labels x) added /\
    (r = Val tt ->
     forall proc mem,
       Py.get info "ProcessorSummary" (JDict []) = Ok proc ->
       Py.get info "MemorySummary" (JDict []) = Ok mem ->
       List.length added
       = ((if Py.truthy proc then 1 else 0) + (if Py.truthy mem then 1 else 0))%nat).
Proof.
  intros Hrun. unfold store_health, add_sample in Hrun. exec_run Hrun.
  all: injection Hrun as <- <-; simpl.
  all: rewrite <- ?app_assoc; simpl.
  all: first [ eexists [_; _]; samples_tail
             | eexists [_]; samples_tail
             | exists []; samples_tail ].
Qed.

Lemma store_health_samples_witness :
  exists added,
    health_summary_metrics (store_health processor_summary_only (init "bmc")).2
    = (health_summary_metrics (init "bmc") ++ added)%list /\
    (List.length added <= 2)%nat /\
    Forall (fun x => labels (init "bmc") ⊆ sample_labels x) added /\
    ((store_health processor_summary_only (init "bmc")).1 = Val tt ->
     forall proc mem,
       Py.get processor_summary_only "ProcessorSummary" (JDict []) = Ok proc ->
       Py.get processor_summary_only "MemorySummary" (JDict []) = Ok mem ->
       List.length added
       = ((if Py.truthy proc then 1 else 0) + (if Py.truthy mem then 1 else 0))%nat).
Proof.
  apply (store_health_samples processor_summary_only (init "bmc")).
  reflexivity.
Defined.

Lemma get_session_version w usr pwd s r s' d :
  exchanges s = [] ->
  fetched (w 0%nat (GET (JStr "/redfish/v1") (prepare_session usr pwd true false s)))
  = Ok (JDict d) ->
  d <> [] ->
  get_session w usr pwd s = (r, s') ->
  redfish_version s'
  = match Py.assoc "RedfishVersion" d with Some v => v | None => redfish_version s end.
Proof.
  intros Hex Hroot Hd Hrun.
  unfold get_session, locate_sessions, post_session, accept_session, get_url, send, ok
    in Hrun.
  simpl in Hrun. rewrite connect_server_eq in Hrun. cbv zeta in Hrun.
  rewrite Hex in Hrun. simpl in Hrun. rewrite Hroot in Hrun.
  simpl in Hrun. rewrite (truthy_dict d Hd) in Hrun.
  exec_in Hrun Hex.
  all: injection Hrun as <- <-; simpl; reflexivity.
Qed.

(** X23: the protocol version.  When the service root answers with a
    non-empty object, [redfish_version] after [get_session] is the
    [RedfishVersion] member of that object, or still [not available]
    when the object has no such member, however the negotiation goes on
    and ends. *)
Theorem redfish_version_recorded w host usr pwd d :
  fetched (w 0%nat (GET (JStr "/redfish/v1") anonymous)) = Ok (JDict d) ->
  d <> [] ->
  redfish_version (get_session w usr pwd (init host)).2
  = match Py.assoc "RedfishVersion" d with
    | Some v => v
    | None => JStr "not available"
    end.
Proof.
  intros Hroot Hd.
  destruct (get_session w usr pwd (init host)) as [r s'] eqn:Hrun.
  exact (get_session_version w usr pwd (init host) r s' d eq_refl Hroot Hd Hrun).
Qed.

Lemma redfish_version_recorded_witness :
  redfish_version (get_session refuses_session_service "admin" "secret" (init "bmc")).2
  = JStr "1.6.0".
Proof.
  apply (redfish_version_recorded refuses_session_service "bmc" "admin" "secret"
           [("RedfishVersion", JStr "1.6.0");
            ("Systems", link "/redfish/v1/Systems");
            ("SessionService", link "/redfish/v1/SessionService")]).
  - reflexivity.
  - discriminate.
Defined.
